(** * frePPLe integration glue: the Odoo XML controller and the Django
      multi-database admin.

    Shallow embedding of
      - contrib/odoo/addons_v9/controllers/frepplexml.py  (module [Frepplexml])
      - contrib/django/freppledb/common/__init__.py       (module [Common])

    Python values, exceptions and the few string builtins the two files rely
    on live in module [Py]. Framework collaborators (the Odoo session, the
    company model, PyJWT, the exporter and the importer, the Django admin
    services) are fields of an environment record, so that every theorem
    holds for all of their behaviours. *)

From Stdlib Require Import ZArith Ascii String List.
From stdpp Require Import base gmap strings list.

Local Open Scope string_scope.
Local Open Scope Z_scope.

(* ===================================================================== *)
(** ** Python values, exceptions and builtins                            *)
(* ===================================================================== *)

Module Py.

(** An exception instance: its class name and [str(e)]. Only subclasses of
    [Exception] are modelled, the ones an [except Exception] clause
    catches. *)
Record exn := Exception { exn_type : string; exn_msg : string }.

Inductive result (A : Type) : Type :=
| Ret (a : A)
| Raise (e : exn).
Arguments Ret {A} a.
Arguments Raise {A} e.

(** The dynamically typed values that reach the collaborators. *)
Inductive value :=
| VNone
| VInt (z : Z)
| VStr (s : string).

#[export] Instance value_eq_dec : EqDecision value.
Proof. solve_decision. Defined.

#[export] Instance exn_eq_dec : EqDecision exn.
Proof. solve_decision. Defined.

Definition is_int (v : value) : bool :=
  match v with VInt _ => true | _ => false end.

(** [not x] for an optional string: [None] and [''] are falsy. *)
Definition falsy (o : option string) : bool :=
  match o with
  | None => true
  | Some s => bool_decide (s = "")
  end.

Definition ValueError (msg : string) : exn := Exception "ValueError" msg.
Definition IndexError (msg : string) : exn := Exception "IndexError" msg.
Definition KeyError (msg : string) : exn := Exception "KeyError" msg.
Definition NameError (msg : string) : exn := Exception "NameError" msg.
Definition TypeError (msg : string) : exn := Exception "TypeError" msg.
Definition AttributeError (msg : string) : exn :=
  Exception "AttributeError" msg.

(** *** str.split(sep, 1) for a one-character separator *)

Fixpoint split_at (sep : ascii) (s : string) : option (string * string) :=
  match s with
  | EmptyString => None
  | String c s' =>
      if bool_decide (c = sep) then Some (EmptyString, s')
      else match split_at sep s' with
           | Some (a, b) => Some (String c a, b)
           | None => None
           end
  end.

Definition split1 (sep : ascii) (s : string) : list string :=
  match split_at sep s with
  | Some (a, b) => [a; b]
  | None => [s]
  end.

(** [a, b = l]: tuple unpacking into exactly two names. *)
Definition unpack2 (l : list string) : result (string * string) :=
  match l with
  | [a; b] => Ret (a, b)
  | [] | [_] => Raise (ValueError "need more than 1 value to unpack")
  | _ => Raise (ValueError "too many values to unpack")
  end.

(** *** str.lower() on ASCII *)

Definition lower_char (c : ascii) : ascii :=
  let n := nat_of_ascii c in
  if (Nat.leb 65 n && Nat.leb n 90)%bool then ascii_of_nat (n + 32) else c.

Fixpoint lower (s : string) : string :=
  match s with
  | EmptyString => EmptyString
  | String c s' => String (lower_char c) (lower s')
  end.

(** *** str.strip() *)

Definition is_space (c : ascii) : bool :=
  let n := nat_of_ascii c in
  (Nat.eqb n 32 || (Nat.leb 9 n && Nat.leb n 13))%bool.

Fixpoint lstrip (s : string) : string :=
  match s with
  | EmptyString => EmptyString
  | String c s' => if is_space c then lstrip s' else s
  end.

(** Drops the trailing white space: a character is kept when it is not
    white space or when something is kept after it. *)
Fixpoint rstrip (s : string) : string :=
  match s with
  | EmptyString => EmptyString
  | String c s' =>
      match rstrip s' with
      | EmptyString => if is_space c then EmptyString
                       else String c EmptyString
      | r => String c r
      end
  end.

Definition strip (s : string) : string := rstrip (lstrip s).

(** *** int(x)

    [int] of an integer is the integer; [int] of a string reads a decimal
    literal: surrounding white space, an optional sign, one or more
    digits. Anything else raises ValueError; [int(None)] raises
    TypeError. *)

Definition is_digit (c : ascii) : bool :=
  let n := nat_of_ascii c in (Nat.leb 48 n && Nat.leb n 57)%bool.

Fixpoint digits_value (acc : Z) (s : string) : option Z :=
  match s with
  | EmptyString => Some acc
  | String c s' =>
      if is_digit c
      then digits_value (10 * acc + Z.of_nat (nat_of_ascii c - 48)) s'
      else None
  end.

Definition invalid_literal (s : string) : exn :=
  ValueError ("invalid literal for int() with base 10: " +:+ s).

Definition unsigned_of_str (orig ds : string) : result Z :=
  match ds with
  | EmptyString => Raise (invalid_literal orig)
  | _ => match digits_value 0 ds with
         | Some n => Ret n
         | None => Raise (invalid_literal orig)
         end
  end.

Definition int_of_str (s : string) : result Z :=
  match strip s with
  | String "-" ds =>
      match unsigned_of_str s ds with
      | Ret n => Ret (- n)
      | Raise e => Raise e
      end
  | String "+" ds => unsigned_of_str s ds
  | ds => unsigned_of_str s ds
  end.

Definition int (v : value) : result Z :=
  match v with
  | VInt z => Ret z
  | VStr s => int_of_str s
  | VNone => Raise (TypeError "int() argument must be a string or a number, not 'NoneType'")
  end.

(** *** ''.join(chunks) *)
Definition join (chunks : list string) : string :=
  fold_right String.append "" chunks.

(** *** seq[i] with Python's negative indices *)
Definition index {A : Type} (l : list A) (i : Z) : result A :=
  let n := Z.of_nat (length l) in
  let j := if i <? 0 then i + n else i in
  if (j <? 0) || (n <=? j) then Raise (IndexError "list index out of range")
  else match l !! Z.to_nat j with
       | Some x => Ret x
       | None => Raise (IndexError "list index out of range")
       end.

(** *** fmt % arg for a format whose conversions are all [%s]

    The first [%s] is replaced by [arg]; a format without conversion
    raises TypeError ("not all arguments converted"). *)
Fixpoint subst_s (fmt arg : string) : option string :=
  match fmt with
  | EmptyString => None
  | String "%" (String "s" rest) => Some (arg +:+ rest)
  | String c rest =>
      match subst_s rest arg with
      | Some r => Some (String c r)
      | None => None
      end
  end.

Definition format1 (fmt arg : string) : result string :=
  match subst_s fmt arg with
  | Some r => Ret r
  | None =>
      Raise (TypeError "not all arguments converted during string formatting")
  end.

End Py.


(* ===================================================================== *)
(** ** contrib/odoo/addons_v9/controllers/frepplexml.py                  *)
(* ===================================================================== *)

Module Frepplexml.
Import Py.

(** *** Data *)

(** A [res.company] record, as far as the controller reads it. *)
Record company := Company {
  company_id : Z;
  company_name : string;
  webtoken_key : string
}.

#[export] Instance company_eq_dec : EqDecision company.
Proof. solve_decision. Defined.

(** [req.httprequest]: the method, the headers (looked up without regard
    to case, hence keyed here by lower-cased field name) and the posted
    form. *)
Record httprequest := HttpRequest {
  method : string;
  headers : gmap string string;
  form : gmap string string
}.

(** What the handler writes into [req.session]. *)
Record session := Session {
  session_db : option string;
  session_lang : option string
}.

(** The observable actions of one request, oldest first. *)
Inductive event :=
| LogWarning (msg : string)
| LogException (msg : string) (exc : exn)
| CallExporter (database company : option string) (mode : value)
| CallImporter (database : option string) (comp : company) (mode : value).

#[export] Instance event_eq_dec : EqDecision event.
Proof. solve_decision. Defined.

Definition is_call (ev : event) : bool :=
  match ev with
  | CallExporter _ _ _ | CallImporter _ _ _ => true
  | _ => false
  end.

(** Mutable state: the session, the controller attribute [self.user] and
    the trace of actions. *)
Record state := State {
  sess : session;
  self_user : option string;
  trace : list event
}.

(** The collaborators that are not part of this file. *)
Record world := World {
  (** [db_monodb()] *)
  db_monodb : option string;
  (** [s.decode('base64')] *)
  base64_decode : string -> result string;
  (** truth value of [req.session.authenticate(db, login, password)] *)
  session_authenticate : string -> string -> string -> result bool;
  (** the rows of [res.company] *)
  companies : list company;
  (** [jwt.decode(token, key, algorithms=...)] *)
  jwt_decode :
    option string -> string -> list string -> result (gmap string value);
  (** [exporter(req, database, company, mode).run()], fully iterated *)
  exporter_run :
    session -> option string -> option string -> value ->
    result (list string);
  (** [importer(req, database, company, mode).run()] *)
  importer_run :
    session -> option string -> company -> value -> result string
}.

Record response := Response {
  status : Z;
  body : string;
  resp_headers : list (string * string)
}.

(** [req.make_response(data, headers)]: a response with the default
    status, 200. *)
Definition make_response (data : string) (hs : list (string * string))
  : response := Response 200 data hs.

(** The werkzeug exceptions the handler raises itself. *)
Inductive http_exception :=
| InternalServerError (description : string)
| MethodNotAllowed (arg : string).

Definition code (e : http_exception) : Z :=
  match e with
  | InternalServerError _ => 500
  | MethodNotAllowed _ => 405
  end.

Inductive outcome :=
| Returned (r : response)
| Raised (e : http_exception).

Definition outcome_status (o : outcome) : Z :=
  match o with
  | Returned r => status r
  | Raised e => code e
  end.

(** *** A state-and-exception monad for the method bodies

    A raise keeps the state reached so far: Python does not roll back
    assignments made before the exception. *)

Definition M (A : Type) : Type := state -> result A * state.

#[export] Instance M_ret : MRet M := fun A a st => (Ret a, st).

#[export] Instance M_bind : MBind M := fun A B f m st =>
  match m st with
  | (Ret a, st') => f a st'
  | (Raise e, st') => (Raise e, st')
  end.

Definition raise {A : Type} (e : exn) : M A := fun st => (Raise e, st).

Definition lift {A : Type} (r : result A) : M A := fun st => (r, st).

Definition emit (ev : event) : M unit := fun st =>
  (Ret tt, State (sess st) (self_user st) (trace st ++ [ev])).

Definition set_self_user (u : string) : M unit := fun st =>
  (Ret tt, State (sess st) (Some u) (trace st)).

Definition set_session_db (db : option string) (st : state) : state :=
  State (Session db (session_lang (sess st))) (self_user st) (trace st).

Definition set_session_lang (l : string) : M unit := fun st =>
  (Ret tt,
   State (Session (session_db (sess st)) (Some l)) (self_user st) (trace st)).

(** A call to a collaborator that receives the request context. *)
Definition with_session {A : Type} (f : session -> result A) : M A :=
  fun st => (f (sess st), st).

Definition get_self_user : M string := fun st =>
  match self_user st with
  | Some u => (Ret u, st)
  | None => (Raise (AttributeError "user"), st)
  end.

Definition log (ev : event) (st : state) : state :=
  State (sess st) (self_user st) (trace st ++ [ev]).

(** *** XMLController.authenticate *)

Definition authenticate (w : world) (req : httprequest)
    (database language : option string) : M unit :=
  match headers req !! "authorization" with
  | None => raise (Exception "Exception" "No authentication header")
  | Some h =>
      '(authmeth, auth) ← lift (unpack2 (split1 " " h));
      if negb (bool_decide (lower authmeth = "basic"))
      then raise (Exception "Exception" "Unknown authentication method")
      else
        auth ← lift (base64_decode w (strip auth));
        '(user, password) ← lift (unpack2 (split1 ":" auth));
        set_self_user user;;
        if falsy database || bool_decide (user = "")
           || bool_decide (password = "")
        then raise (Exception "Exception"
                      "Missing user, password or database")
        else
          ok ← lift (session_authenticate w (default "" database)
                       user password);
          if negb ok
          then raise (Exception "Exception" "Odoo authentication failed")
          else if falsy language then mret tt
          else set_session_lang (default "" language)
  end.

(** *** XMLController.xml *)

Definition dq : string := String (ascii_of_nat 34) EmptyString.

Definition login_challenge : response :=
  Response 401 "Login with Odoo user name and password"
    [("WWW-Authenticate", "Basic realm=" +:+ dq +:+ "odoo" +:+ dq)].

Definition no_cache : list (string * string) :=
  [("Cache-Control", "no-cache, no-store, must-revalidate");
   ("Pragma", "no-cache");
   ("Expires", "0")].

(** [d.get('mode', 1)]: the text supplied, or the integer 1. *)
Definition get_mode (d : gmap string string) : value :=
  match d !! "mode" with
  | Some s => VStr s
  | None => VInt 1
  end.

(** The body of the [try] of the GET branch. *)
Definition export_data (w : world) (kwargs : gmap string string)
    (database : option string) : M response :=
  mode ← lift (int (get_mode kwargs));
  emit (CallExporter database (kwargs !! "company") (VInt mode));;
  chunks ← with_session (fun ss =>
    exporter_run w ss database (kwargs !! "company") (VInt mode));
  mret (make_response (join chunks)
          (("Content-Type", "application/xml;charset=utf8") :: no_cache)).

(** [m.search([('name', '=', company_name)])] followed by [m.browse]:
    the rows whose name is exactly [company_name]. The name of a company
    is a required field, so an absent [company_name] selects no row. *)
Definition search_company (w : world) (company_name : option string)
  : list company :=
  filter (fun c => Some (Frepplexml.company_name c) = company_name)
         (companies w).

(** The [for] loop leaves the last browsed record in [company]. *)
Definition resolve_company (w : world) (company_name : option string)
  : option company := last (search_company w company_name).

(** [decoded.get('user', None)] *)
Definition user_claim (decoded : gmap string value) : value :=
  default VNone (decoded !! "user").

(** The body of the webtoken [try]: [Ret true] when the token is accepted,
    [Ret false] for the 401 returned inside the [try], a raise for
    whatever the bare [except] swallows. *)
Definition check_webtoken (w : world) (req : httprequest) (comp : company)
  : M bool :=
  decoded ← lift (jwt_decode w (form req !! "webtoken")
                    (webtoken_key comp) ["HS256"]);
  u ← get_self_user;
  mret (bool_decide (VStr u = user_claim decoded)).

(** The body of the [try] of the POST branch. *)
Definition import_data (w : world) (req : httprequest)
    (database : option string) (comp : company) : M response :=
  emit (CallImporter database comp (get_mode (form req)));;
  res ← with_session (fun ss =>
    importer_run w ss database comp (get_mode (form req)));
  mret (make_response res (("Content-Type", "text/plain") :: no_cache)).

Definition export_error : string :=
  "Error generating frePPLe XML data: check the Odoo log file for more details".

Definition import_error : string :=
  "Error processing data posted by frePPLe: check the Odoo log file for more details".

Definition xml (w : world) (req : httprequest) (kwargs : gmap string string)
  : state -> outcome * state := fun st =>
  let database := kwargs !! "database" in
  let database := if falsy database then db_monodb w else database in
  let language := kwargs !! "language" in
  if bool_decide (method req = "GET") then
    let database := kwargs !! "database" in
    let st := set_session_db database st in
    match authenticate w req database language st with
    | (Raise e, st) =>
        (Returned login_challenge,
         log (LogWarning ("Failed login attempt: " +:+ exn_msg e)) st)
    | (Ret _, st) =>
        match export_data w kwargs database st with
        | (Ret r, st) => (Returned r, st)
        | (Raise e, st) =>
            (Raised (InternalServerError export_error),
             log (LogException "Error generating frePPLe XML data" e) st)
        end
    end
  else if bool_decide (method req = "POST") then
    let database := form req !! "database" in
    let st := set_session_db database st in
    match authenticate w req database language st with
    | (Raise e, st) =>
        (Returned login_challenge,
         log (LogWarning ("Failed login attempt " +:+ exn_msg e)) st)
    | (Ret _, st) =>
        match resolve_company w (form req !! "company") with
        | None => (Returned (Response 401 "Invalid company name argument" []), st)
        | Some comp =>
            match check_webtoken w req comp st with
            | (Ret true, st) =>
                match import_data w req database comp st with
                | (Ret r, st) => (Returned r, st)
                | (Raise e, st) =>
                    (Raised (InternalServerError import_error),
                     log (LogException
                            "Error processing data posted by frePPLe" e) st)
                end
            | (_, st) =>
                (Returned (Response 401 "Incorrect or missing webtoken" []),
                 st)
            end
        end
    end
  else
    (Raised (MethodNotAllowed "Only GET and POST requests are accepted"),
     st).

End Frepplexml.

(* ===================================================================== *)
(** ** contrib/django/freppledb/common/__init__.py                       *)
(* ===================================================================== *)

Module Common.
Import Py.

(** *** Data *)

(** A model instance, as far as the admin reads it. *)
Record model_obj := ModelObj {
  obj_model : string;               (** its model class *)
  obj_pk : string;                  (** [force_unicode(obj.pk)] *)
  obj_unicode : string;             (** [force_unicode(obj)] *)
  obj_verbose_name : string;        (** [obj._meta.verbose_name] *)
  obj_deferred : bool;              (** [obj._deferred] *)
  obj_proxy_verbose_name : string   (** of [opts.proxy_for_model] *)
}.

(** The request, with the attributes the frePPLe middleware adds
    ([database], [prefix]) and the breadcrumbs kept in the session:
    [None] when the session has no [crumbs] key, otherwise a list of
    entries, each a sequence of text fields. *)
Record request := Request {
  database : string;
  user_pk : Z;
  POST : gmap string string;
  REQUEST : gmap string string;
  prefix : string;
  path : string;
  crumbs : option (list (list string))
}.

(** The admin instance: [self.model] and its [_meta]. *)
Record model_admin := ModelAdmin {
  model : string;
  app_label : string;
  object_name : string;
  verbose_name : string;
  verbose_name_plural : string;
  object_history_template : option string;
  delete_confirmation_template : option string
}.

Inductive action_flag := ADDITION | CHANGE | DELETION.

Record log_entry := LogEntry {
  user_id : Z;
  content_type_id : Z;
  object_id : string;
  object_repr : string;
  flag : action_flag;
  change_message : string
}.

(** A Django QuerySet: the model it ranges over and the alias chosen with
    [.using(alias)], [None] while the router decides. *)
Record query_set := QuerySet {
  qs_model : string;
  qs_db : option string
}.

Definition qs_using (qs : query_set) (alias : string) : query_set :=
  QuerySet (qs_model qs) (Some alias).

Inductive field_kind := ForeignKey | ManyToMany.

(** The call [super().formfield_for_...(db_field, request=request,
    using=..., **kwargs)]. *)
Record formfield_call := FormfieldCall {
  ff_kind : field_kind;
  ff_field : string;
  ff_using : string;
  ff_kwargs : gmap string value
}.

(** The framework calls a method makes, in order. Calls that take a
    database alias carry it; [ContentTypeForModel], [ModelDelete] and
    [MessageUser] are made without one in the source. *)
Inductive call :=
| ModelSave (obj : model_obj) (alias : string)
| LogEntrySave (entry : log_entry) (alias : string)
| LogEntryFilter (alias : string) (oid : string) (ctype : Z)
| GetObjectOr404 (qs : query_set) (pk : string)
| QuerySetGet (qs : query_set) (pk : string)
| GetDeletedObjects (objs : list model_obj) (alias : string)
| ContentTypeForModel (m : string)
| ModelDelete (obj : model_obj)
| MessageUser (msg : string).

(** The alias a call names, if it names one. *)
Definition call_db (c : call) : option string :=
  match c with
  | ModelSave _ a | LogEntrySave _ a | LogEntryFilter a _ _
  | GetDeletedObjects _ a => Some a
  | GetObjectOr404 qs _ | QuerySetGet qs _ => qs_db qs
  | ContentTypeForModel _ | ModelDelete _ | MessageUser _ => None
  end.

Inductive http_response :=
| HttpResponseRedirect (url : string)
| HttpResponse (content : string)
| RenderToResponse (templates : list string) (title : string).

(** What [get_deleted_objects] returns. *)
Record deleted_info := DeletedInfo {
  deleted_objects : list string;
  perms_needed : list string;
  protected : list string
}.

(** The services of the framework behind the admin. *)
Record framework := Framework {
  (** [ContentType.objects.get_for_model(m).pk] *)
  content_type_pk : string -> Z;
  (** [django.contrib.admin.util.unquote] *)
  unquote : string -> string;
  (** [queryset.get(pk=...)]: [None] when there is no such row *)
  qs_get : query_set -> string -> option model_obj;
  has_delete_permission : request -> option model_obj -> bool;
  get_deleted_objects : list model_obj -> string -> deleted_info
}.

(** A method body: its result and the calls it made. *)
Definition eff (A : Type) : Type := (result A * list call)%type.

Definition slice200 (s : string) : string := String.substring 0 200 s.

(** *** MultiDBModelAdmin *)

Definition save_model (request : request) (obj : model_obj) : list call :=
  [ModelSave obj (database request)].

(** [super().queryset(request)]: the default manager's query set. *)
Definition super_queryset (self : model_admin) : query_set :=
  QuerySet (model self) None.

Definition queryset (self : model_admin) (request : request) : query_set :=
  qs_using (super_queryset self) (database request).

(** Passing [using] twice, once by name and once inside [**kwargs], is a
    TypeError. *)
Definition formfield_for (kind : field_kind) (db_field : string)
    (request : request) (kwargs : gmap string value)
  : result formfield_call :=
  match kwargs !! "using" with
  | Some _ =>
      Raise (TypeError "got multiple values for keyword argument 'using'")
  | None => Ret (FormfieldCall kind db_field (database request) kwargs)
  end.

Definition formfield_for_foreignkey := formfield_for ForeignKey.
Definition formfield_for_manytomany := formfield_for ManyToMany.

Definition log_addition (fw : framework) (request : request)
    (object : model_obj) : list call :=
  [ContentTypeForModel (obj_model object);
   LogEntrySave
     (LogEntry (user_pk request) (content_type_pk fw (obj_model object))
        (obj_pk object) (slice200 (obj_unicode object)) ADDITION "")
     (database request)].

Definition log_change (fw : framework) (request : request)
    (object : model_obj) (message : string) : list call :=
  [ContentTypeForModel (obj_model object);
   LogEntrySave
     (LogEntry (user_pk request) (content_type_pk fw (obj_model object))
        (obj_pk object) (slice200 (obj_unicode object)) CHANGE message)
     (database request)].

Definition log_deletion (self : model_admin) (fw : framework)
    (request : request) (object : model_obj) (object_repr : string)
  : list call :=
  [ContentTypeForModel (model self);
   LogEntrySave
     (LogEntry (user_pk request) (content_type_pk fw (model self))
        (obj_pk object) (slice200 object_repr) DELETION "")
     (database request)].

Definition Http404 (msg : string) : exn := Exception "Http404" msg.
Definition PermissionDenied : exn := Exception "PermissionDenied" "".

Definition history_templates (self : model_admin) : list string :=
  match object_history_template self with
  | Some t => [t]
  | None =>
      ["admin/" +:+ app_label self +:+ "/" +:+ lower (object_name self)
         +:+ "/object_history.html";
       "admin/" +:+ app_label self +:+ "/object_history.html";
       "admin/object_history.html"]
  end.

Definition history_view (self : model_admin) (fw : framework)
    (request : request) (object_id : string) : eff http_response :=
  let listing :=
    [ContentTypeForModel (model self);
     LogEntryFilter (database request) object_id
       (content_type_pk fw (model self))] in
  let objects := qs_using (QuerySet (model self) None) (database request) in
  let calls := (listing ++ [GetObjectOr404 objects (unquote fw object_id)])%list in
  match qs_get fw objects (unquote fw object_id) with
  | None => (Raise (Http404 "No object matches the given query."), calls)
  | Some obj =>
      (Ret (RenderToResponse (history_templates self)
              ("Change history: " +:+ obj_unicode obj)),
       calls)
  end.

(** [request.session['crumbs'][i][2]] *)
Definition crumb_url (request : request) (i : Z) : result string :=
  match crumbs request with
  | None => Raise (KeyError "crumbs")
  | Some l =>
      match index l i with
      | Ret entry => index entry 2
      | Raise e => Raise e
      end
  end.

Definition has_key (d : gmap string string) (k : string) : bool :=
  bool_decide (is_Some (d !! k)).

Definition dq : string := String (ascii_of_nat 34) EmptyString.

Definition quoted (s : string) : string := dq +:+ s +:+ dq.

Definition redirect_to (r : result string) : result http_response :=
  match r with
  | Ret url => Ret (HttpResponseRedirect url)
  | Raise e => Raise e
  end.

Definition response_add (request : request) (obj : model_obj)
    (post_url_continue : string) : eff http_response :=
  let pk_value := obj_pk obj in
  let msg := "The " +:+ obj_verbose_name obj +:+ " "
             +:+ quoted (obj_unicode obj) +:+ " was added successfully." in
  if has_key (POST request) "_continue" then
    let post_url_continue :=
      if has_key (POST request) "_popup"
      then post_url_continue +:+ "?_popup=1" else post_url_continue in
    (redirect_to (format1 post_url_continue pk_value),
     [MessageUser (msg +:+ " " +:+ "You may edit it again below.")])
  else if has_key (POST request) "_popup" then
    (Raise (NameError "global name 'escapejs' is not defined"), [])
  else if has_key (POST request) "_addanother" then
    (Ret (HttpResponseRedirect (prefix request +:+ path request)),
     [MessageUser (msg +:+ " " +:+ "You may add another "
                   +:+ obj_verbose_name obj +:+ " below.")])
  else
    (redirect_to (crumb_url request (-2)), [MessageUser msg]).

Definition response_change (request : request) (obj : model_obj)
  : eff http_response :=
  let verbose_name :=
    if obj_deferred obj then obj_proxy_verbose_name obj
    else obj_verbose_name obj in
  let pk_value := obj_pk obj in
  let msg := "The " +:+ verbose_name +:+ " "
             +:+ quoted (obj_unicode obj) +:+ " was changed successfully." in
  if has_key (POST request) "_continue" then
    (Ret (HttpResponseRedirect
            (if has_key (REQUEST request) "_popup"
             then prefix request +:+ path request +:+ "?_popup=1"
             else prefix request +:+ path request)),
     [MessageUser (msg +:+ " " +:+ "You may edit it again below.")])
  else if has_key (POST request) "_saveasnew" then
    (Ret (HttpResponseRedirect ("../" +:+ pk_value +:+ "/")),
     [MessageUser ("The " +:+ verbose_name +:+ " "
                   +:+ quoted (obj_unicode obj)
                   +:+ " was added successfully. You may edit it again below.")])
  else if has_key (POST request) "_addanother" then
    (Ret (HttpResponseRedirect "../add/"),
     [MessageUser (msg +:+ " " +:+ "You may add another "
                   +:+ verbose_name +:+ " below.")])
  else
    (redirect_to (crumb_url request (-2)), [MessageUser msg]).

(** [self.get_object(request, object_id)]: the framework fetches from
    [self.queryset(request)]. *)
Definition get_object (self : model_admin) (fw : framework)
    (request : request) (object_id : string) : option model_obj :=
  qs_get fw (queryset self request) object_id.

(** [self.delete_model(request, obj)], not overridden: [obj.delete()]. *)
Definition delete_model (obj : model_obj) : list call := [ModelDelete obj].

Definition delete_templates (self : model_admin) : list string :=
  match delete_confirmation_template self with
  | Some t => [t]
  | None =>
      ["admin/" +:+ app_label self +:+ "/" +:+ lower (object_name self)
         +:+ "/delete_confirmation.html";
       "admin/" +:+ app_label self +:+ "/delete_confirmation.html";
       "admin/delete_confirmation.html"]
  end.

Definition nonempty {A : Type} (l : list A) : bool :=
  match l with [] => false | _ => true end.

Definition delete_view (self : model_admin) (fw : framework)
    (request : request) (object_id : string) : eff http_response :=
  let fetch := [QuerySetGet (queryset self request) (unquote fw object_id)] in
  let obj := get_object self fw request (unquote fw object_id) in
  if negb (has_delete_permission fw request obj) then
    (Raise PermissionDenied, fetch)
  else
    match obj with
    | None =>
        (Raise (Http404 (verbose_name self +:+ " object with primary key "
                         +:+ object_id +:+ " does not exist.")),
         fetch)
    | Some obj =>
        let alias := database request in
        let info := get_deleted_objects fw [obj] alias in
        let calls := (fetch ++ [GetDeletedObjects [obj] alias])%list in
        if bool_decide (POST request ≠ ∅) then
          if nonempty (perms_needed info) then (Raise PermissionDenied, calls)
          else
            let obj_display := obj_unicode obj in
            (redirect_to (crumb_url request (-3)),
             (calls ++ log_deletion self fw request obj obj_display
                ++ delete_model obj
                ++ [MessageUser ("The " +:+ verbose_name self +:+ " "
                                 +:+ quoted obj_display
                                 +:+ " was deleted successfully.")])%list)
        else
          let title :=
            if nonempty (perms_needed info) || nonempty (protected info)
            then "Cannot delete " +:+ verbose_name self
            else "Are you sure?" in
          (Ret (RenderToResponse (delete_templates self) title), calls)
    end.


(** *** MultiDBTabularInline *)

Module Inline.
Definition queryset (self : model_admin) (request : request) : query_set :=
  qs_using (super_queryset self) (database request).

Definition formfield_for_foreignkey := formfield_for ForeignKey.
Definition formfield_for_manytomany := formfield_for ManyToMany.
End Inline.

End Common.
(* ===================================================================== *)
(** ** Vocabulary of the properties of the XML endpoint                  *)
(* ===================================================================== *)

Module XmlSpec.
Import Py Frepplexml.

(** The [Authorization] header of [req] is a Basic one whose payload
    decodes to the text [cred]. *)
Definition basic_credentials (w : world) (req : httprequest)
    (cred : string) : Prop :=
  exists h scheme payload,
    headers req !! "authorization" = Some h
    /\ split_at " " h = Some (scheme, payload)
    /\ lower scheme = "basic"
    /\ base64_decode w (strip payload) = Ret cred.

(** The request carries credentials that [database] accepts. *)
Definition credentials_accepted (w : world) (req : httprequest)
    (database : option string) (user password : string) : Prop :=
  exists cred db,
    basic_credentials w req cred
    /\ split_at ":" cred = Some (user, password)
    /\ database = Some db /\ db <> "" /\ user <> "" /\ password <> ""
    /\ session_authenticate w db user password = Ret true.

(** The ways a login fails: no header, a header without credentials, a
    scheme other than Basic, a payload that is not base64 or has no colon,
    an empty user, password or database, credentials the database
    rejects, or a failing authentication service. *)
Inductive auth_failure (w : world) (req : httprequest)
    (database : option string) : Prop :=
| NoHeader :
    headers req !! "authorization" = None ->
    auth_failure w req database
| NoPayload h :
    headers req !! "authorization" = Some h ->
    split_at " " h = None ->
    auth_failure w req database
| NotBasic h scheme payload :
    headers req !! "authorization" = Some h ->
    split_at " " h = Some (scheme, payload) ->
    lower scheme <> "basic" ->
    auth_failure w req database
| BadBase64 h scheme payload e :
    headers req !! "authorization" = Some h ->
    split_at " " h = Some (scheme, payload) ->
    base64_decode w (strip payload) = Raise e ->
    auth_failure w req database
| NoColon cred :
    basic_credentials w req cred ->
    split_at ":" cred = None ->
    auth_failure w req database
| EmptyField cred user password :
    basic_credentials w req cred ->
    split_at ":" cred = Some (user, password) ->
    falsy database = true \/ user = "" \/ password = "" ->
    auth_failure w req database
| Rejected cred user password db :
    basic_credentials w req cred ->
    split_at ":" cred = Some (user, password) ->
    database = Some db ->
    session_authenticate w db user password = Ret false ->
    auth_failure w req database
| BackendError cred user password db e :
    basic_credentials w req cred ->
    split_at ":" cred = Some (user, password) ->
    database = Some db ->
    session_authenticate w db user password = Raise e ->
    auth_failure w req database.

(** The state a successful [authenticate] leaves behind. *)
Definition logged_in (user : string) (language : option string)
    (st : state) : state :=
  State (Session (session_db (sess st))
           (if falsy language then session_lang (sess st) else language))
        (Some user) (trace st).

(** The database name each branch of the handler authenticates against. *)
Definition get_database (kwargs : gmap string string) : option string :=
  kwargs !! "database".

Definition post_database (req : httprequest) : option string :=
  form req !! "database".

(** The session the collaborators see after a successful login. *)
Definition login_session (database language : option string) (st : state)
  : session :=
  Session database
    (if falsy language then session_lang (sess st) else language).

End XmlSpec.

(* ===================================================================== *)
(** ** A concrete deployment, used to run the handler                    *)
(* ===================================================================== *)

Module Scenario.
Import Py Frepplexml.

Definition acme : company := Company 1 "ACME" "acme-secret".

Definition DecodeError : exn := Exception "DecodeError" "Not enough segments".

(** One database, [prod]; one user, admin/secret; one company; tokens
    signed with the company key for the users admin and bob. *)
Definition demo : world := {|
  db_monodb := Some "prod";
  base64_decode := fun s =>
    if bool_decide (s = "YWRtaW46c2VjcmV0") then Ret "admin:secret"
    else Raise (Exception "Error" "Incorrect padding");
  session_authenticate := fun db login password =>
    Ret (bool_decide (db = "prod") && bool_decide (login = "admin")
         && bool_decide (password = "secret"));
  companies := [acme];
  jwt_decode := fun token key algorithms =>
    if bool_decide (key = "acme-secret")
       && bool_decide (algorithms = ["HS256"])
    then
      if bool_decide (token = Some "token-for-admin")
      then Ret {[ "user" := VStr "admin" ]}
      else if bool_decide (token = Some "token-for-bob")
      then Ret {[ "user" := VStr "bob" ]}
      else Raise DecodeError
    else Raise DecodeError;
  exporter_run := fun _ _ _ mode =>
    if bool_decide (mode = VInt 13)
    then Raise (Exception "KeyError" "product.product")
    else Ret ["<plan>"; "<items/>"; "</plan>"];
  importer_run := fun _ _ _ mode =>
    if bool_decide (mode = VStr "13")
    then Raise (Exception "ParseError" "line 1, column 0")
    else Ret "imported"
|}.

Definition basic_admin : gmap string string :=
  {[ "authorization" := "Basic YWRtaW46c2VjcmV0" ]}.

Definition fresh : state := State (Session None None) None [].

Definition get_req : httprequest := HttpRequest "GET" basic_admin ∅.

Definition post_req (fields : gmap string string) : httprequest :=
  HttpRequest "POST" basic_admin fields.

Definition good_form : gmap string string :=
  {[ "database" := "prod"; "company" := "ACME";
     "webtoken" := "token-for-admin" ]}.

(** Variations of the two good requests. *)
Definition initech_form : gmap string string :=
  <[ "company" := "Initech" ]> good_form.

Definition bob_form : gmap string string :=
  <[ "webtoken" := "token-for-bob" ]> good_form.

Definition mode2_form : gmap string string := <[ "mode" := "2" ]> good_form.

Definition mode13_form : gmap string string :=
  <[ "mode" := "13" ]> good_form.

Definition prod_kwargs : gmap string string := {[ "database" := "prod" ]}.

Definition mode2_kwargs : gmap string string :=
  <[ "mode" := "2" ]> prod_kwargs.

Definition mode13_kwargs : gmap string string :=
  <[ "mode" := "13" ]> prod_kwargs.

Definition anonymous_post : httprequest := HttpRequest "POST" ∅ good_form.

(** The same deployment after a merger: two companies are called ACME, and
    tokens are signed with the key of the newer one. *)
Definition acme_old : company := Company 1 "ACME" "old-key".
Definition initech : company := Company 2 "Initech" "initech-key".
Definition acme_new : company := Company 3 "ACME" "new-key".

Definition merged : world := {|
  db_monodb := None;
  base64_decode := base64_decode demo;
  session_authenticate := session_authenticate demo;
  companies := [acme_old; initech; acme_new];
  jwt_decode := fun token key algorithms =>
    if bool_decide (key = "new-key") && bool_decide (algorithms = ["HS256"])
       && bool_decide (token = Some "token-for-admin")
    then Ret {[ "user" := VStr "admin" ]}
    else Raise DecodeError;
  exporter_run := exporter_run demo;
  importer_run := importer_run demo
|}.

(** The admin of the model Item in the database [scenario1], reached
    through three pages. *)
Definition item_admin : Common.model_admin :=
  Common.ModelAdmin "Item" "input" "Item" "item" "items" None None.

Definition item7 : Common.model_obj :=
  Common.ModelObj "Item" "7" "bolt" "item" false "item".

Definition trail : list (list string) :=
  [["Home"; "<a href=/scenario1/admin/>Home</a>"; "/scenario1/admin/"];
   ["Items"; "<a href=/scenario1/admin/input/item/>Items</a>";
    "/scenario1/admin/input/item/"];
   ["bolt"; "<a href=/scenario1/admin/input/item/7/>bolt</a>";
    "/scenario1/admin/input/item/7/"]].

Definition admin_request (post : gmap string string)
    (crumbs : option (list (list string))) : Common.request :=
  Common.Request "scenario1" 1 post post "/scenario1"
    "/admin/input/item/7/" crumbs.

Definition plain_request : Common.request :=
  admin_request {[ "name" := "bolt" ]} (Some trail).

Definition saveasnew_request : Common.request :=
  admin_request {[ "name" := "bolt"; "_saveasnew" := "1" ]} (Some trail).

Definition short_request : Common.request :=
  admin_request {[ "name" := "bolt" ]}
    (Some [["bolt"; "<a href=/scenario1/admin/input/item/7/>bolt</a>";
            "/scenario1/admin/input/item/7/"]]).

Definition django : Common.framework := {|
  Common.content_type_pk := fun _ => 5;
  Common.unquote := fun s => s;
  Common.qs_get := fun qs pk =>
    if bool_decide (Common.qs_db qs = Some "scenario1")
       && bool_decide (pk = "7")
    then Some item7 else None;
  Common.has_delete_permission := fun _ _ => true;
  Common.get_deleted_objects := fun _ _ => Common.DeletedInfo ["bolt"] [] []
|}.
End Scenario.

(* ===================================================================== *)
(** ** Vocabulary of the properties of the admin classes                 *)
(* ===================================================================== *)

Module AdminSpec.
Import Py Common.









(** The save types, told apart by the keys of [request.POST]. *)
Definition plain_add (request : request) : Prop :=
  POST request !! "_continue" = None
  /\ POST request !! "_popup" = None
  /\ POST request !! "_addanother" = None.

Definition plain_change (request : request) : Prop :=
  POST request !! "_continue" = None
  /\ POST request !! "_saveasnew" = None
  /\ POST request !! "_addanother" = None.

(** A deletion the user has confirmed and is allowed to make. *)
Definition confirmed_delete (self : model_admin) (fw : framework)
    (request : request) (object_id : string) : Prop :=
  POST request <> ∅
  /\ exists obj,
       get_object self fw request (unquote fw object_id) = Some obj
       /\ has_delete_permission fw request (Some obj) = true
       /\ perms_needed (get_deleted_objects fw [obj] (database request)) = [].

(** The breadcrumb entry with [k] entries after it has [url] as its
    third field. *)
Definition crumb_from_end (request : request) (k : nat) (url : string)
  : Prop :=
  exists before entry after,
    crumbs request = Some (before ++ entry :: after)%list
    /\ length after = k
    /\ entry !! 2%nat = Some url.

(** The session has a breadcrumb list of fewer than [n] entries. *)
Definition fewer_crumbs (request : request) (n : nat) : Prop :=
  exists l, crumbs request = Some l /\ (length l < n)%nat.

End AdminSpec.

(* ===================================================================== *)
(** ** The outcomes of one request to the XML endpoint                   *)
(* ===================================================================== *)

Module XmlCases.
Import Py Frepplexml XmlSpec.

(** The events a run added to the trace. *)
Definition new_events (st st' : state) : list event :=
  drop (length (trace st)) (trace st').

(** The same deployment with another answer of [db_monodb()]. *)
Definition with_monodb (d : option string) (w : world) : world :=
  World d (base64_decode w) (session_authenticate w) (companies w)
    (jwt_decode w) (exporter_run w) (importer_run w).

(** The webtoken is refused for the company [comp] and the user [user]. *)
Definition token_refused (w : world) (req : httprequest) (comp : company)
    (user : string) : Prop :=
  (exists e, jwt_decode w (form req !! "webtoken") (webtoken_key comp)
               ["HS256"] = Raise e)
  \/ (exists decoded,
        jwt_decode w (form req !! "webtoken") (webtoken_key comp) ["HS256"]
        = Ret decoded
        /\ user_claim decoded <> VStr user).

(** The webtoken is accepted for the company [comp] and the user [user]. *)
Definition token_accepted (w : world) (req : httprequest) (comp : company)
    (user : string) : Prop :=
  exists decoded,
    jwt_decode w (form req !! "webtoken") (webtoken_key comp) ["HS256"]
    = Ret decoded
    /\ user_claim decoded = VStr user.

(** The nine ways a request ends: what is answered and which events are
    added, with the conditions on the request that lead there. *)
Inductive xml_case (w : world) (req : httprequest)
    (kwargs : gmap string string) (st : state)
  : outcome -> list event -> Prop :=
| OtherMethod :
    method req <> "GET" -> method req <> "POST" ->
    xml_case w req kwargs st
      (Raised (MethodNotAllowed "Only GET and POST requests are accepted")) []
| LoginFailed msg :
    (method req = "GET" /\ auth_failure w req (get_database kwargs))
    \/ (method req = "POST" /\ auth_failure w req (post_database req)) ->
    xml_case w req kwargs st (Returned login_challenge) [LogWarning msg]
| BadMode user password e :
    method req = "GET" ->
    credentials_accepted w req (get_database kwargs) user password ->
    int (get_mode kwargs) = Raise e ->
    xml_case w req kwargs st (Raised (InternalServerError export_error))
      [LogException "Error generating frePPLe XML data" e]
| Exported user password mode chunks :
    method req = "GET" ->
    credentials_accepted w req (get_database kwargs) user password ->
    int (get_mode kwargs) = Ret mode ->
    exporter_run w
      (login_session (get_database kwargs) (kwargs !! "language") st)
      (get_database kwargs) (kwargs !! "company") (VInt mode) = Ret chunks ->
    xml_case w req kwargs st
      (Returned (make_response (join chunks)
                   (("Content-Type", "application/xml;charset=utf8")
                    :: no_cache)))
      [CallExporter (get_database kwargs) (kwargs !! "company") (VInt mode)]
| ExportFailed user password mode e :
    method req = "GET" ->
    credentials_accepted w req (get_database kwargs) user password ->
    int (get_mode kwargs) = Ret mode ->
    exporter_run w
      (login_session (get_database kwargs) (kwargs !! "language") st)
      (get_database kwargs) (kwargs !! "company") (VInt mode) = Raise e ->
    xml_case w req kwargs st (Raised (InternalServerError export_error))
      [CallExporter (get_database kwargs) (kwargs !! "company") (VInt mode);
       LogException "Error generating frePPLe XML data" e]
| NoCompany user password :
    method req = "POST" ->
    credentials_accepted w req (post_database req) user password ->
    resolve_company w (form req !! "company") = None ->
    xml_case w req kwargs st
      (Returned (Response 401 "Invalid company name argument" [])) []
| BadToken user password comp :
    method req = "POST" ->
    credentials_accepted w req (post_database req) user password ->
    resolve_company w (form req !! "company") = Some comp ->
    token_refused w req comp user ->
    xml_case w req kwargs st
      (Returned (Response 401 "Incorrect or missing webtoken" [])) []
| Imported user password comp res :
    method req = "POST" ->
    credentials_accepted w req (post_database req) user password ->
    resolve_company w (form req !! "company") = Some comp ->
    token_accepted w req comp user ->
    importer_run w
      (login_session (post_database req) (kwargs !! "language") st)
      (post_database req) comp (get_mode (form req)) = Ret res ->
    xml_case w req kwargs st
      (Returned (make_response res (("Content-Type", "text/plain")
                                    :: no_cache)))
      [CallImporter (post_database req) comp (get_mode (form req))]
| ImportFailed user password comp e :
    method req = "POST" ->
    credentials_accepted w req (post_database req) user password ->
    resolve_company w (form req !! "company") = Some comp ->
    token_accepted w req comp user ->
    importer_run w
      (login_session (post_database req) (kwargs !! "language") st)
      (post_database req) comp (get_mode (form req)) = Raise e ->
    xml_case w req kwargs st (Raised (InternalServerError import_error))
      [CallImporter (post_database req) comp (get_mode (form req));
       LogException "Error processing data posted by frePPLe" e].

End XmlCases.

(* ===================================================================== *)
(** ** Facts about the Python builtins                                   *)
(* ===================================================================== *)

Module PyFacts.
Import Py.

Example split1_basic :
  split1 " " "Basic dXNlcjpwdw==" = ["Basic"; "dXNlcjpwdw=="].
Proof. reflexivity. Qed.

Example split1_first_only : split1 ":" "a:b:c" = ["a"; "b:c"].
Proof. reflexivity. Qed.

Example split1_no_separator : split1 ":" "abc" = ["abc"].
Proof. reflexivity. Qed.

Example lower_mixed : lower "BaSiC" = "basic".
Proof. reflexivity. Qed.

Example strip_both : strip "  a b  " = "a b".
Proof. reflexivity. Qed.

Example int_plain : int (VStr " 42 ") = Ret 42.
Proof. reflexivity. Qed.

Example int_negative : int (VStr "-7") = Ret (-7).
Proof. reflexivity. Qed.

Example int_rejects :
  int (VStr "abc") = Raise (invalid_literal "abc").
Proof. reflexivity. Qed.

Example index_negative : index ["a"; "b"; "c"] (-2) = Ret "b".
Proof. reflexivity. Qed.

Example index_short :
  index ["a"] (-2) = Raise (IndexError "list index out of range").
Proof. reflexivity. Qed.

Example format1_pk : format1 "../%s/" "17" = Ret "../17/".
Proof. reflexivity. Qed.
(** [split_at] cuts at the first separator. *)
Lemma split_at_spec sep s a b :
  split_at sep s = Some (a, b) ->
  s = a +:+ String sep b /\ split_at sep a = None.
Proof.
  revert a. induction s as [|c s IH]; intros a H; cbn in H; [discriminate|].
  destruct (bool_decide (c = sep)) eqn:Hc.
  - apply bool_decide_eq_true_1 in Hc. subst c.
    injection H as <- <-. split; reflexivity.
  - destruct (split_at sep s) as [[a' b']|]; [|discriminate].
    injection H as <- <-. destruct (IH a' eq_refl) as [-> Hn].
    split; [reflexivity|]. cbn. rewrite Hc, Hn. reflexivity.
Qed.

Lemma append_assoc (a b c : string) : (a +:+ b) +:+ c = a +:+ (b +:+ c).
Proof.
  induction a as [|x a IH]; [reflexivity|].
  change (String x ((a +:+ b) +:+ c) = String x (a +:+ (b +:+ c))).
  rewrite IH. reflexivity.
Qed.

(** [''.join] concatenates in order. *)
Lemma join_app l1 l2 : join (l1 ++ l2)%list = join l1 +:+ join l2.
Proof.
  induction l1 as [|c l1 IH]; [reflexivity|].
  change (c +:+ join (l1 ++ l2)%list = (c +:+ join l1) +:+ join l2).
  rewrite IH. symmetry. apply append_assoc.
Qed.

End PyFacts.

(* ===================================================================== *)
(** ** The XML endpoint: authentication                                  *)
(* ===================================================================== *)

Module AuthFacts.
Import Py Frepplexml XmlSpec.

(** Unfolds one monadic step of a method body. *)
Ltac step :=
  unfold mbind, mret, M_bind, M_ret, lift, raise, emit, set_self_user,
    set_session_lang, with_session, get_self_user;
  cbn beta iota.

Lemma split1_some sep s a b :
  split_at sep s = Some (a, b) -> unpack2 (split1 sep s) = Ret (a, b).
Proof. intros H. unfold split1. rewrite H. reflexivity. Qed.

Lemma split1_none sep s :
  split_at sep s = None -> exists e, unpack2 (split1 sep s) = Raise e.
Proof. intros H. unfold split1. rewrite H. eexists. reflexivity. Qed.

Lemma falsy_some db : db <> "" -> falsy (Some db) = false.
Proof. intros H. unfold falsy. apply bool_decide_eq_false_2, H. Qed.

(** Accepted credentials: [authenticate] returns, records the user and,
    when a language is given, the language. *)
Lemma authenticate_accepted w req database language user password st :
  credentials_accepted w req database user password ->
  authenticate w req database language st
  = (Ret tt, logged_in user language st).
Proof.
  intros (cred & db & (h & scheme & payload & Hh & Hs & Hl & Hd)
          & Hc & -> & Hdb & Hu & Hp & Hok).
  unfold authenticate. rewrite Hh. step.
  rewrite (split1_some _ _ _ _ Hs). step.
  rewrite (bool_decide_eq_true_2 _ Hl). cbn [negb].
  step. rewrite Hd. rewrite (split1_some _ _ _ _ Hc). step.
  rewrite (falsy_some _ Hdb), (bool_decide_eq_false_2 _ Hu),
    (bool_decide_eq_false_2 _ Hp).
  cbn [orb from_option id]. step. rewrite Hok. cbn [negb].
  unfold logged_in. destruct (falsy language) eqn:Hlang.
  - step. destruct st as [[? ?] ? ?]. reflexivity.
  - destruct language; [|discriminate]. reflexivity.
Qed.

(** A failed login: [authenticate] raises, and touches neither the
    session nor the trace. *)
Lemma authenticate_failure w req database language st :
  auth_failure w req database ->
  exists e st',
    authenticate w req database language st = (Raise e, st')
    /\ sess st' = sess st /\ trace st' = trace st.
Proof.
  intros Hf. unfold authenticate.
  destruct Hf as
    [Hh | h Hh Hs | h scheme payload Hh Hs Hl | h scheme payload e Hh Hs He
     | cred (h & scheme & payload & Hh & Hs & Hl & Hd) Hc
     | cred user password (h & scheme & payload & Hh & Hs & Hl & Hd) Hc He
     | cred user password db (h & scheme & payload & Hh & Hs & Hl & Hd) Hc -> Hr
     | cred user password db e (h & scheme & payload & Hh & Hs & Hl & Hd) Hc -> Hr];
    rewrite Hh; step.
  - eauto.
  - destruct (split1_none _ _ Hs) as [e ->]. eauto.
  - rewrite (split1_some _ _ _ _ Hs). step.
    rewrite (bool_decide_eq_false_2 _ Hl). cbn [negb]. eauto.
  - rewrite (split1_some _ _ _ _ Hs). step.
    destruct (bool_decide (lower scheme = "basic")); cbn [negb]; step;
      [rewrite He|]; eauto.
  - rewrite (split1_some _ _ _ _ Hs). step.
    rewrite (bool_decide_eq_true_2 _ Hl). cbn [negb]. step. rewrite Hd.
    destruct (split1_none _ _ Hc) as [e ->]. eauto.
  - rewrite (split1_some _ _ _ _ Hs). step.
    rewrite (bool_decide_eq_true_2 _ Hl). cbn [negb]. step. rewrite Hd.
    rewrite (split1_some _ _ _ _ Hc). step.
    assert (falsy database || bool_decide (user = "")
            || bool_decide (password = "") = true) as ->.
    { destruct He as [-> | [-> | ->]]; [reflexivity | |];
        destruct (falsy database); cbn;
        try reflexivity; try (destruct (bool_decide (user = "")); reflexivity). }
    eauto.
  - rewrite (split1_some _ _ _ _ Hs). step.
    rewrite (bool_decide_eq_true_2 _ Hl). cbn [negb]. step. rewrite Hd.
    rewrite (split1_some _ _ _ _ Hc). step.
    destruct (falsy (Some db) || bool_decide (user = "")
              || bool_decide (password = "")); [eauto|].
    step. cbn [from_option id]. rewrite Hr. cbn [negb]. eauto.
  - rewrite (split1_some _ _ _ _ Hs). step.
    rewrite (bool_decide_eq_true_2 _ Hl). cbn [negb]. step. rewrite Hd.
    rewrite (split1_some _ _ _ _ Hc). step.
    destruct (falsy (Some db) || bool_decide (user = "")
              || bool_decide (password = "")); [eauto|].
    step. cbn [from_option id]. rewrite Hr. eauto.
Qed.

(** The vocabulary is exhaustive: a request either carries accepted
    credentials or fails to log in for one of the listed reasons. *)
Lemma login_dichotomy w req database :
  (exists user password, credentials_accepted w req database user password)
  \/ auth_failure w req database.
Proof.
  destruct (headers req !! "authorization") as [h|] eqn:Hh;
    [|right; apply NoHeader; exact Hh].
  destruct (split_at " " h) as [[scheme payload]|] eqn:Hs;
    [|right; apply (NoPayload _ _ _ h); assumption].
  destruct (decide (lower scheme = "basic")) as [Hl|Hl];
    [|right; apply (NotBasic _ _ _ h scheme payload); assumption].
  destruct (base64_decode w (strip payload)) as [cred|e] eqn:Hd;
    [|right; apply (BadBase64 _ _ _ h scheme payload e); assumption].
  assert (Hcred : basic_credentials w req cred)
    by (exists h, scheme, payload; auto).
  destruct (split_at ":" cred) as [[user password]|] eqn:Hc;
    [|right; apply (NoColon _ _ _ cred); assumption].
  destruct database as [db|];
    [|right; apply (EmptyField _ _ _ cred user password); auto].
  destruct (decide (db = "")) as [->|Hdb];
    [right; apply (EmptyField _ _ _ cred user password); auto|].
  destruct (decide (user = "")) as [Hu|Hu];
    [right; apply (EmptyField _ _ _ cred user password); auto|].
  destruct (decide (password = "")) as [Hp|Hp];
    [right; apply (EmptyField _ _ _ cred user password); auto|].
  destruct (session_authenticate w db user password) as [[|]|e] eqn:Hok.
  - left. exists user, password, cred, db. repeat split; assumption.
  - right. apply (Rejected _ _ _ cred user password db); auto.
  - right. apply (BackendError _ _ _ cred user password db e); auto.
Qed.

End AuthFacts.

(* ===================================================================== *)
(** ** The XML endpoint: the handler                                     *)
(* ===================================================================== *)

Module XmlFacts.
Import Py Frepplexml XmlSpec AuthFacts.

Lemma is_get req : method req = "GET" -> bool_decide (method req = "GET") = true.
Proof. intros H. apply bool_decide_eq_true_2, H. Qed.

Lemma is_post req :
  method req = "POST" ->
  bool_decide (method req = "GET") = false
  /\ bool_decide (method req = "POST") = true.
Proof.
  intros H. split.
  - apply bool_decide_eq_false_2. rewrite H. discriminate.
  - apply bool_decide_eq_true_2, H.
Qed.

(** No company of that name: the [for] loop never assigns. *)
Lemma resolve_company_none w name :
  (forall c, c ∈ companies w -> Some (company_name c) <> name) ->
  resolve_company w name = None.
Proof.
  intros H. unfold resolve_company, search_company.
  induction (companies w) as [|c l IH]; [reflexivity|].
  rewrite filter_cons. destruct (decide (Some (company_name c) = name)) as [E|_].
  - exfalso. apply (H c); [left | exact E].
  - apply IH. intros c' Hc'. apply H. right. exact Hc'.
Qed.

(** A resolved company is a row of the directory carrying that name. *)
Lemma resolve_company_some w name comp :
  resolve_company w name = Some comp ->
  comp ∈ companies w /\ name = Some (company_name comp).
Proof.
  unfold resolve_company, search_company. intros H.
  apply last_Some_elem_of in H. apply list_elem_of_filter in H.
  destruct H as [H1 H2]. split; [exact H2 | symmetry; exact H1].
Qed.

(** The GET branch up to the end of the login. *)
Lemma xml_get_logged_in w req kwargs st user password :
  method req = "GET" ->
  credentials_accepted w req (get_database kwargs) user password ->
  xml w req kwargs st
  = let st1 := logged_in user (kwargs !! "language")
                 (set_session_db (get_database kwargs) st) in
    match export_data w kwargs (get_database kwargs) st1 with
    | (Ret r, st2) => (Returned r, st2)
    | (Raise e, st2) =>
        (Raised (InternalServerError export_error),
         log (LogException "Error generating frePPLe XML data" e) st2)
    end.
Proof.
  intros Hm Hacc. unfold xml. rewrite (is_get _ Hm). cbn zeta.
  unfold get_database in *.
  rewrite (authenticate_accepted _ _ _ _ _ _ _ Hacc). reflexivity.
Qed.

(** The POST branch up to the end of the login. *)
Lemma xml_post_logged_in w req kwargs st user password :
  method req = "POST" ->
  credentials_accepted w req (post_database req) user password ->
  xml w req kwargs st
  = let st1 := logged_in user (kwargs !! "language")
                 (set_session_db (post_database req) st) in
    match resolve_company w (form req !! "company") with
    | None =>
        (Returned (Response 401 "Invalid company name argument" []), st1)
    | Some comp =>
        match check_webtoken w req comp st1 with
        | (Ret true, st2) =>
            match import_data w req (post_database req) comp st2 with
            | (Ret r, st3) => (Returned r, st3)
            | (Raise e, st3) =>
                (Raised (InternalServerError import_error),
                 log (LogException
                        "Error processing data posted by frePPLe" e) st3)
            end
        | (_, st2) =>
            (Returned (Response 401 "Incorrect or missing webtoken" []), st2)
        end
    end.
Proof.
  intros Hm Hacc. unfold xml. destruct (is_post _ Hm) as [-> ->]. cbn zeta.
  unfold post_database in *.
  rewrite (authenticate_accepted _ _ _ _ _ _ _ Hacc). reflexivity.
Qed.

(** The webtoken check after a login as [user]. *)
Lemma check_webtoken_logged_in w req comp user language st :
  check_webtoken w req comp (logged_in user language st)
  = match jwt_decode w (form req !! "webtoken") (webtoken_key comp)
            ["HS256"] with
    | Ret decoded =>
        (Ret (bool_decide (VStr user = user_claim decoded)),
         logged_in user language st)
    | Raise e => (Raise e, logged_in user language st)
    end.
Proof.
  unfold check_webtoken. step.
  destruct (jwt_decode _ _ _ _); reflexivity.
Qed.

End XmlFacts.

Module XmlClaims.
Import Py Frepplexml XmlSpec AuthFacts XmlFacts Scenario.

(** Without a database name [authenticate] cannot succeed. *)
Lemma authenticate_without_database w req language st :
  exists e st',
    authenticate w req None language st = (Raise e, st')
    /\ trace st' = trace st.
Proof.
  unfold authenticate.
  destruct (headers req !! "authorization") as [h|]; step; [|eauto].
  destruct (unpack2 (split1 " " h)) as [[scheme payload]|e]; [|eauto].
  destruct (negb (bool_decide (lower scheme = "basic"))); [eauto|].
  destruct (base64_decode w (strip payload)) as [cred|e]; [|eauto].
  destruct (unpack2 (split1 ":" cred)) as [[user password]|e]; eauto.
Qed.

(** The fallback computed at the top of [xml] never reaches the GET
    branch, which reads [kwargs] again. *)
Lemma get_without_database w req kwargs st :
  method req = "GET" ->
  kwargs !! "database" = None ->
  fst (xml w req kwargs st) = Returned login_challenge.
Proof.
  intros Hm Hk. unfold xml. rewrite (is_get _ Hm), Hk. cbn zeta.
  destruct (authenticate_without_database w req (kwargs !! "language")
              (set_session_db None st)) as (e & st' & -> & _).
  reflexivity.
Qed.

(** C1 (evaluation at the failing input). The deployment has the default
    database [prod] and the request carries credentials [prod] accepts,
    yet a GET without [database] is answered with the 401 challenge and
    the exporter is not called; the same request with [database=prod]
    is answered with the export. *)
Theorem get_default_database_is_dropped :
  db_monodb demo = Some "prod"
  /\ xml demo get_req ∅ fresh
     = (Returned login_challenge,
        State (Session None None) (Some "admin")
          [LogWarning
             "Failed login attempt: Missing user, password or database"])
  /\ fst (xml demo get_req {[ "database" := "prod" ]} fresh)
     = Returned (Response 200 "<plan><items/></plan>"
                   (("Content-Type", "application/xml;charset=utf8")
                    :: no_cache)).
Proof. repeat split; vm_compute; reflexivity. Qed.

(** C2. A GET or POST whose login fails (no [Authorization] header, a
    scheme other than Basic, a malformed header or payload, credentials
    the database rejects) is answered with status 401, the body 'Login
    with Odoo user name and password' and a Basic [WWW-Authenticate]
    challenge; the only action of the request is one warning in the log,
    so neither the exporter nor the importer is called. *)
Theorem failed_login_is_challenged w req kwargs st :
  (method req = "GET" /\ auth_failure w req (get_database kwargs))
  \/ (method req = "POST" /\ auth_failure w req (post_database req)) ->
  fst (xml w req kwargs st)
  = Returned (Response 401 "Login with Odoo user name and password"
                [("WWW-Authenticate",
                  "Basic realm=" +:+ dq +:+ "odoo" +:+ dq)])
  /\ exists msg,
       trace (snd (xml w req kwargs st))
       = (trace st ++ [LogWarning msg])%list.
Proof.
  unfold get_database, post_database.
  intros [[Hm Hf] | [Hm Hf]]; unfold xml.
  - rewrite (is_get _ Hm). cbn zeta.
    destruct (authenticate_failure w req _ (kwargs !! "language")
                (set_session_db (kwargs !! "database") st) Hf)
      as (e & st' & -> & _ & Ht).
    split; [reflexivity|]. eexists. cbn. rewrite Ht. reflexivity.
  - destruct (is_post _ Hm) as [-> ->]. cbn zeta.
    destruct (authenticate_failure w req _ (kwargs !! "language")
                (set_session_db (form req !! "database") st) Hf)
      as (e & st' & -> & _ & Ht).
    split; [reflexivity|]. eexists. cbn. rewrite Ht. reflexivity.
Qed.

Lemma failed_login_is_challenged_witness :
  fst (xml demo anonymous_post ∅ fresh)
  = Returned (Response 401 "Login with Odoo user name and password"
                [("WWW-Authenticate",
                  "Basic realm=" +:+ dq +:+ "odoo" +:+ dq)])
  /\ exists msg,
       trace (snd (xml demo anonymous_post ∅ fresh))
       = (trace fresh ++ [LogWarning msg])%list.
Proof.
  apply (failed_login_is_challenged demo anonymous_post ∅ fresh).
  right. split; [reflexivity|]. apply NoHeader. reflexivity.
Defined.

(** C3. An authenticated POST whose [company] field (absent or present)
    names no company of the directory is answered with status 401 and
    the body 'Invalid company name argument'. Nothing is assumed about
    the webtoken or about how tokens decode: the company is looked up
    first. The importer is not called. *)
Theorem unknown_company_is_refused w req kwargs st user password :
  method req = "POST" ->
  credentials_accepted w req (post_database req) user password ->
  (forall c, c ∈ companies w ->
             Some (company_name c) <> form req !! "company") ->
  fst (xml w req kwargs st)
  = Returned (Response 401 "Invalid company name argument" [])
  /\ trace (snd (xml w req kwargs st)) = trace st.
Proof.
  intros Hm Hacc Hnone.
  rewrite (xml_post_logged_in _ _ _ _ _ _ Hm Hacc). cbn zeta.
  rewrite (resolve_company_none _ _ Hnone). split; reflexivity.
Qed.

Lemma demo_accepts_admin (fields : gmap string string) :
  fields !! "database" = Some "prod" ->
  credentials_accepted demo (post_req fields) (post_database (post_req fields))
    "admin" "secret".
Proof.
  intros Hdb. exists "admin:secret", "prod".
  repeat split; try reflexivity; try discriminate; [|exact Hdb].
  exists "Basic YWRtaW46c2VjcmV0", "Basic", "YWRtaW46c2VjcmV0".
  repeat split; reflexivity.
Defined.

Lemma unknown_company_is_refused_witness :
  fst (xml demo (post_req initech_form) ∅ fresh)
  = Returned (Response 401 "Invalid company name argument" [])
  /\ trace (snd (xml demo (post_req initech_form) ∅ fresh)) = trace fresh.
Proof.
  apply (unknown_company_is_refused demo (post_req initech_form) ∅ fresh
           "admin" "secret").
  - reflexivity.
  - apply demo_accepts_admin. reflexivity.
  - intros c Hc. apply list_elem_of_singleton in Hc. subst c.
    vm_compute. discriminate.
Defined.

(** C4. An authenticated POST with a resolved company decodes the
    webtoken with that company's key under HS256. When decoding raises,
    or the decoded [user] claim is not the authenticated user name, the
    answer is status 401 with the body 'Incorrect or missing webtoken'
    and the importer is not called. *)
Theorem bad_webtoken_is_refused w req kwargs st user password comp :
  method req = "POST" ->
  credentials_accepted w req (post_database req) user password ->
  resolve_company w (form req !! "company") = Some comp ->
  (exists e, jwt_decode w (form req !! "webtoken") (webtoken_key comp)
               ["HS256"] = Raise e)
  \/ (exists decoded,
        jwt_decode w (form req !! "webtoken") (webtoken_key comp)
          ["HS256"] = Ret decoded
        /\ user_claim decoded <> VStr user) ->
  fst (xml w req kwargs st)
  = Returned (Response 401 "Incorrect or missing webtoken" [])
  /\ trace (snd (xml w req kwargs st)) = trace st.
Proof.
  intros Hm Hacc Hcomp Hbad.
  rewrite (xml_post_logged_in _ _ _ _ _ _ Hm Hacc). cbn zeta.
  rewrite Hcomp, check_webtoken_logged_in.
  destruct Hbad as [[e ->] | (decoded & -> & Hne)].
  - split; reflexivity.
  - rewrite bool_decide_eq_false_2 by congruence. split; reflexivity.
Qed.

Lemma bad_webtoken_is_refused_witness :
  fst (xml demo (post_req bob_form) ∅ fresh)
  = Returned (Response 401 "Incorrect or missing webtoken" [])
  /\ trace (snd (xml demo (post_req bob_form) ∅ fresh)) = trace fresh.
Proof.
  apply (bad_webtoken_is_refused demo (post_req bob_form) ∅ fresh
           "admin" "secret" acme).
  - reflexivity.
  - apply demo_accepts_admin. reflexivity.
  - reflexivity.
  - right. exists {[ "user" := VStr "bob" ]}. split; [reflexivity|].
    vm_compute. discriminate.
Defined.

(** The export [try] once the mode is an integer: one exporter call, then
    its chunks or its exception. *)
Lemma export_data_run w kwargs database st mode :
  int (get_mode kwargs) = Ret mode ->
  export_data w kwargs database st
  = let st1 := log (CallExporter database (kwargs !! "company") (VInt mode))
                 st in
    match exporter_run w (sess st) database (kwargs !! "company")
            (VInt mode) with
    | Ret chunks =>
        (Ret (make_response (join chunks)
                (("Content-Type", "application/xml;charset=utf8")
                 :: no_cache)), st1)
    | Raise e => (Raise e, st1)
    end.
Proof.
  intros Hmode. unfold export_data. step. rewrite Hmode.
  cbn [sess]. destruct (exporter_run _ _ _ _ _); reflexivity.
Qed.

(** A mode that is not an integer literal ends the export [try] before
    the exporter is built. *)
Lemma export_data_bad_mode w kwargs database st e :
  int (get_mode kwargs) = Raise e ->
  export_data w kwargs database st = (Raise e, st).
Proof. intros Hmode. unfold export_data. step. rewrite Hmode. reflexivity. Qed.

(** The import [try]: one importer call with the mode as posted, then its
    result or its exception. *)
Lemma import_data_run w req database comp st :
  import_data w req database comp st
  = let st1 := log (CallImporter database comp (get_mode (form req))) st in
    match importer_run w (sess st) database comp (get_mode (form req)) with
    | Ret res =>
        (Ret (make_response res (("Content-Type", "text/plain") :: no_cache)),
         st1)
    | Raise e => (Raise e, st1)
    end.
Proof.
  unfold import_data. step. cbn [sess].
  destruct (importer_run _ _ _ _ _); reflexivity.
Qed.

Lemma sess_logged_in user database language st :
  sess (logged_in user language (set_session_db database st))
  = login_session database language st.
Proof. reflexivity. Qed.


Lemma demo_accepts_admin_get (kwargs : gmap string string) :
  kwargs !! "database" = Some "prod" ->
  credentials_accepted demo get_req (get_database kwargs) "admin" "secret".
Proof.
  intros Hdb. exists "admin:secret", "prod".
  repeat split; try reflexivity; try discriminate; [|exact Hdb].
  exists "Basic YWRtaW46c2VjcmV0", "Basic", "YWRtaW46c2VjcmV0".
  repeat split; reflexivity.
Defined.


(** C6. A POST with accepted credentials, a resolved company and a
    webtoken that decodes under the company key to the authenticated
    user, whose importer run returns [res], is answered with status 200,
    the body [res], the content type text/plain and the three
    cache-disabling headers. *)
Theorem import_success w req kwargs st user password comp decoded res :
  method req = "POST" ->
  credentials_accepted w req (post_database req) user password ->
  resolve_company w (form req !! "company") = Some comp ->
  jwt_decode w (form req !! "webtoken") (webtoken_key comp) ["HS256"]
  = Ret decoded ->
  user_claim decoded = VStr user ->
  importer_run w
    (login_session (post_database req) (kwargs !! "language") st)
    (post_database req) comp (get_mode (form req)) = Ret res ->
  fst (xml w req kwargs st)
  = Returned (Response 200 res
                [("Content-Type", "text/plain");
                 ("Cache-Control", "no-cache, no-store, must-revalidate");
                 ("Pragma", "no-cache");
                 ("Expires", "0")]).
Proof.
  intros Hm Hacc Hcomp Hjwt Huser Hrun.
  rewrite (xml_post_logged_in _ _ _ _ _ _ Hm Hacc). cbn zeta.
  rewrite Hcomp, check_webtoken_logged_in, Hjwt.
  rewrite bool_decide_eq_true_2 by congruence.
  rewrite import_data_run. cbn zeta. rewrite sess_logged_in, Hrun.
  reflexivity.
Qed.

Lemma import_success_witness :
  fst (xml demo (post_req good_form) ∅ fresh)
  = Returned (Response 200 "imported"
                [("Content-Type", "text/plain");
                 ("Cache-Control", "no-cache, no-store, must-revalidate");
                 ("Pragma", "no-cache");
                 ("Expires", "0")]).
Proof.
  apply (import_success demo (post_req good_form) ∅ fresh "admin" "secret"
           acme {[ "user" := VStr "admin" ]}).
  - reflexivity.
  - apply demo_accepts_admin. reflexivity.
  - reflexivity.
  - reflexivity.
  - reflexivity.
  - reflexivity.
Defined.

(** C7. When the exporter (GET) or the importer (POST) raises [e], the
    handler raises werkzeug's InternalServerError, status 500, whose
    description is a fixed text that does not depend on [e]; the
    exception itself goes to the log, attached to a [logger.exception]
    record. *)
Theorem collaborator_failure_is_opaque w req kwargs st user password e :
  (method req = "GET" ->
   credentials_accepted w req (get_database kwargs) user password ->
   forall mode,
     int (get_mode kwargs) = Ret mode ->
     exporter_run w
       (login_session (get_database kwargs) (kwargs !! "language") st)
       (get_database kwargs) (kwargs !! "company") (VInt mode) = Raise e ->
     fst (xml w req kwargs st)
     = Raised (InternalServerError
         "Error generating frePPLe XML data: check the Odoo log file for more details")
     /\ outcome_status (fst (xml w req kwargs st)) = 500
     /\ trace (snd (xml w req kwargs st))
        = (trace st
           ++ [CallExporter (get_database kwargs) (kwargs !! "company")
                 (VInt mode);
               LogException "Error generating frePPLe XML data" e])%list)
  /\
  (method req = "POST" ->
   credentials_accepted w req (post_database req) user password ->
   forall comp decoded,
     resolve_company w (form req !! "company") = Some comp ->
     jwt_decode w (form req !! "webtoken") (webtoken_key comp) ["HS256"]
     = Ret decoded ->
     user_claim decoded = VStr user ->
     importer_run w
       (login_session (post_database req) (kwargs !! "language") st)
       (post_database req) comp (get_mode (form req)) = Raise e ->
     fst (xml w req kwargs st)
     = Raised (InternalServerError
         "Error processing data posted by frePPLe: check the Odoo log file for more details")
     /\ outcome_status (fst (xml w req kwargs st)) = 500
     /\ trace (snd (xml w req kwargs st))
        = (trace st
           ++ [CallImporter (post_database req) comp (get_mode (form req));
               LogException "Error processing data posted by frePPLe" e])%list).
Proof.
  split.
  - intros Hm Hacc mode Hmode Hrun.
    rewrite (xml_get_logged_in _ _ _ _ _ _ Hm Hacc). cbn zeta.
    rewrite (export_data_run _ _ _ _ _ Hmode). cbn zeta.
    rewrite sess_logged_in, Hrun. cbn.
    rewrite <- app_assoc. repeat split; reflexivity.
  - intros Hm Hacc comp decoded Hcomp Hjwt Huser Hrun.
    rewrite (xml_post_logged_in _ _ _ _ _ _ Hm Hacc). cbn zeta.
    rewrite Hcomp, check_webtoken_logged_in, Hjwt.
    rewrite bool_decide_eq_true_2 by congruence.
    rewrite import_data_run. cbn zeta. rewrite sess_logged_in, Hrun. cbn.
    rewrite <- app_assoc. repeat split; reflexivity.
Qed.

Lemma collaborator_failure_is_opaque_witness :
  (fst (xml demo get_req mode13_kwargs fresh)
   = Raised (InternalServerError
       "Error generating frePPLe XML data: check the Odoo log file for more details")
   /\ outcome_status (fst (xml demo get_req mode13_kwargs fresh)) = 500
   /\ trace (snd (xml demo get_req mode13_kwargs fresh))
      = (trace fresh
         ++ [CallExporter (get_database mode13_kwargs)
               (mode13_kwargs !! "company") (VInt 13);
             LogException "Error generating frePPLe XML data"
               (Exception "KeyError" "product.product")])%list)
  /\
  (fst (xml demo (post_req mode13_form) ∅ fresh)
   = Raised (InternalServerError
       "Error processing data posted by frePPLe: check the Odoo log file for more details")
   /\ outcome_status (fst (xml demo (post_req mode13_form) ∅ fresh)) = 500
   /\ trace (snd (xml demo (post_req mode13_form) ∅ fresh))
      = (trace fresh
         ++ [CallImporter (post_database (post_req mode13_form)) acme
               (get_mode (form (post_req mode13_form)));
             LogException "Error processing data posted by frePPLe"
               (Exception "ParseError" "line 1, column 0")])%list).
Proof.
  split.
  - apply (proj1 (collaborator_failure_is_opaque demo get_req mode13_kwargs
                    fresh "admin" "secret"
                    (Exception "KeyError" "product.product"))).
    + reflexivity.
    + apply demo_accepts_admin_get. reflexivity.
    + reflexivity.
    + reflexivity.
  - apply (proj2 (collaborator_failure_is_opaque demo (post_req mode13_form)
                    ∅ fresh "admin" "secret"
                    (Exception "ParseError" "line 1, column 0")))
      with (decoded := {[ "user" := VStr "admin" ]}).
    + reflexivity.
    + apply demo_accepts_admin. reflexivity.
    + reflexivity.
    + reflexivity.
    + reflexivity.
    + reflexivity.
Defined.

(** A mode that [int] rejects is a failure of the export [try] as well:
    status 500, and the exporter is never built. *)
Lemma export_bad_mode_is_opaque w req kwargs st user password e :
  method req = "GET" ->
  credentials_accepted w req (get_database kwargs) user password ->
  int (get_mode kwargs) = Raise e ->
  fst (xml w req kwargs st) = Raised (InternalServerError export_error)
  /\ trace (snd (xml w req kwargs st))
     = (trace st ++ [LogException "Error generating frePPLe XML data" e])%list.
Proof.
  intros Hm Hacc Hmode.
  rewrite (xml_get_logged_in _ _ _ _ _ _ Hm Hacc). cbn zeta.
  rewrite (export_data_bad_mode _ _ _ _ _ Hmode). split; reflexivity.
Qed.

(** The GET branch converts the mode: whatever the export [try] does, an
    exporter call it records carries the integer [int] computed. *)
Lemma exporter_mode_is_integer w kwargs database st :
  trace (snd (export_data w kwargs database st)) = trace st
  \/ exists mode,
       int (get_mode kwargs) = Ret mode
       /\ trace (snd (export_data w kwargs database st))
          = (trace st
             ++ [CallExporter database (kwargs !! "company") (VInt mode)])%list.
Proof.
  destruct (int (get_mode kwargs)) as [mode|e] eqn:Hmode.
  - right. exists mode. split; [reflexivity|].
    rewrite (export_data_run _ _ _ _ _ Hmode). cbn zeta.
    destruct (exporter_run _ _ _ _ _); reflexivity.
  - left. rewrite (export_data_bad_mode _ _ _ _ _ Hmode). reflexivity.
Qed.

(** The POST branch does not: the importer receives [get_mode], the
    integer 1 when the field is absent and the posted text otherwise. *)
Lemma importer_mode_is_raw w req database comp st :
  trace (snd (import_data w req database comp st))
  = (trace st ++ [CallImporter database comp (get_mode (form req))])%list
  /\ (form req !! "mode" = None -> get_mode (form req) = VInt 1)
  /\ (forall s, form req !! "mode" = Some s -> get_mode (form req) = VStr s).
Proof.
  rewrite import_data_run. cbn zeta. unfold get_mode. repeat split.
  - destruct (importer_run _ _ _ _ _); reflexivity.
  - intros ->. reflexivity.
  - intros s ->. reflexivity.
Qed.

(** C8 (evaluation at the failing input). A valid POST with [mode=2]
    calls the importer with the text '2', which is not an integer; the
    GET branch, given the same parameter, calls the exporter with the
    integer 2. *)
Theorem post_mode_is_passed_as_text :
  trace (snd (xml demo (post_req mode2_form) ∅ fresh))
  = [CallImporter (Some "prod") acme (VStr "2")]
  /\ is_int (VStr "2") = false
  /\ fst (xml demo (post_req mode2_form) ∅ fresh)
     = Returned (Response 200 "imported"
                   (("Content-Type", "text/plain") :: no_cache))
  /\ trace (snd (xml demo get_req mode2_kwargs fresh))
     = [CallExporter (Some "prod") None (VInt 2)].
Proof. repeat split; vm_compute; reflexivity. Qed.

End XmlClaims.

(* ===================================================================== *)
(** ** The admin classes                                                 *)
(* ===================================================================== *)

Module AdminFacts.
Import Py Common AdminSpec.

Lemma index_nat {A : Type} (l : list A) (i : nat) (x : A) :
  l !! i = Some x -> index l (Z.of_nat i) = Ret x.
Proof.
  intros H. pose proof (lookup_lt_Some _ _ _ H) as Hlt. unfold index.
  destruct (Z.ltb_spec (Z.of_nat i) 0) as [Hneg|_]; [lia|].
  destruct (Z.ltb_spec (Z.of_nat i) 0) as [Hneg|_]; [lia|].
  destruct (Z.leb_spec (Z.of_nat (length l)) (Z.of_nat i)) as [Hge|_]; [lia|].
  cbn [orb]. rewrite Nat2Z.id, H. reflexivity.
Qed.

(** [l[-k]] is the entry with [k - 1] entries after it. *)
Lemma index_from_end {A : Type} (before after : list A) (x : A) :
  index (before ++ x :: after) (- Z.of_nat (S (length after))) = Ret x.
Proof.
  unfold index. rewrite length_app. cbn [length].
  set (i := - Z.of_nat (S (length after))).
  set (n := Z.of_nat (length before + S (length after))).
  destruct (Z.ltb_spec i 0) as [_|Hpos]; [|lia].
  assert (Hj : i + n = Z.of_nat (length before)) by lia.
  rewrite Hj.
  destruct (Z.ltb_spec (Z.of_nat (length before)) 0) as [Hneg|_]; [lia|].
  destruct (Z.leb_spec n (Z.of_nat (length before))) as [Hge|_]; [lia|].
  cbn [orb]. rewrite Nat2Z.id.
  rewrite (list_lookup_middle before after x (length before) eq_refl).
  reflexivity.
Qed.

(** [l[-k]] on a list of fewer than [k] entries. *)
Lemma index_too_short {A : Type} (l : list A) (k : nat) :
  (length l < k)%nat ->
  index l (- Z.of_nat k) = Raise (IndexError "list index out of range").
Proof.
  intros H. unfold index.
  destruct (Z.ltb_spec (- Z.of_nat k) 0) as [_|Hpos]; [|lia].
  destruct (Z.ltb_spec (- Z.of_nat k + Z.of_nat (length l)) 0) as [_|Hge];
    [reflexivity | lia].
Qed.

Lemma crumb_url_from_end request k url :
  crumb_from_end request k url ->
  crumb_url request (- Z.of_nat (S k)) = Ret url.
Proof.
  intros (before & entry & after & Hc & <- & Hurl).
  unfold crumb_url. rewrite Hc, index_from_end.
  exact (index_nat entry 2 url Hurl).
Qed.

Lemma crumb_url_too_short request n :
  fewer_crumbs request n ->
  crumb_url request (- Z.of_nat n)
  = Raise (IndexError "list index out of range").
Proof.
  intros (l & Hc & Hlen). unfold crumb_url.
  rewrite Hc, (index_too_short l n Hlen). reflexivity.
Qed.

Lemma has_key_none (d : gmap string string) k :
  d !! k = None -> has_key d k = false.
Proof.
  intros H. unfold has_key. apply bool_decide_eq_false_2.
  rewrite H. intros [x Hx]. discriminate.
Qed.

Lemma has_key_some (d : gmap string string) k v :
  d !! k = Some v -> has_key d k = true.
Proof.
  intros H. unfold has_key. apply bool_decide_eq_true_2.
  rewrite H. eexists. reflexivity.
Qed.

(** The three redirects to a crumb, as the source computes them. *)
Lemma response_add_plain request obj post_url_continue :
  plain_add request ->
  fst (response_add request obj post_url_continue)
  = redirect_to (crumb_url request (-2)).
Proof.
  intros (Hc & Hp & Ha). unfold response_add. cbn zeta.
  rewrite (has_key_none _ _ Hc), (has_key_none _ _ Hp),
    (has_key_none _ _ Ha). reflexivity.
Qed.

Lemma response_change_plain request obj :
  plain_change request ->
  fst (response_change request obj) = redirect_to (crumb_url request (-2)).
Proof.
  intros (Hc & Hs & Ha). unfold response_change. cbn zeta.
  rewrite (has_key_none _ _ Hc), (has_key_none _ _ Hs),
    (has_key_none _ _ Ha). reflexivity.
Qed.

Lemma delete_view_confirmed self fw request object_id :
  confirmed_delete self fw request object_id ->
  fst (delete_view self fw request object_id)
  = redirect_to (crumb_url request (-3)).
Proof.
  intros (Hpost & obj & Hobj & Hperm & Hneeded). unfold delete_view.
  cbn zeta. rewrite Hobj, Hperm. cbn [negb].
  rewrite (bool_decide_eq_true_2 _ Hpost), Hneeded. reflexivity.
Qed.


End AdminFacts.

Module AdminClaims.
Import Py Common AdminSpec AdminFacts Scenario.

(** Once the object is found and may be deleted, its related objects are
    collected in the request's database. *)
Lemma delete_view_resolves_related self fw request object_id obj :
  get_object self fw request (unquote fw object_id) = Some obj ->
  has_delete_permission fw request (Some obj) = true ->
  GetDeletedObjects [obj] (database request)
  ∈ snd (delete_view self fw request object_id).
Proof.
  intros Hobj Hperm. unfold delete_view. cbn zeta.
  rewrite Hobj, Hperm. cbn [negb].
  destruct (bool_decide (POST request ≠ ∅));
    [destruct (nonempty _)|]; cbn [snd];
    rewrite ?elem_of_app, !elem_of_cons; tauto.
Qed.





(** C10, as the spec states it, fails for [response_change]: a change
    posted with [_saveasnew], and with none of [_continue], [_popup],
    [_addanother], is sent to the page of the new object and not to the
    previous crumb. *)
Lemma saveasnew_change_leaves_the_trail :
  plain_add saveasnew_request
  /\ crumb_from_end saveasnew_request 1 "/scenario1/admin/input/item/"
  /\ fst (response_change saveasnew_request item7)
     = Ret (HttpResponseRedirect "../7/")
  /\ fst (response_change saveasnew_request item7)
     <> Ret (HttpResponseRedirect "/scenario1/admin/input/item/").
Proof.
  split; [repeat split; reflexivity|].
  split.
  - exists [["Home"; "<a href=/scenario1/admin/>Home</a>";
             "/scenario1/admin/"]],
      ["Items"; "<a href=/scenario1/admin/input/item/>Items</a>";
       "/scenario1/admin/input/item/"],
      [["bolt"; "<a href=/scenario1/admin/input/item/7/>bolt</a>";
        "/scenario1/admin/input/item/7/"]].
    repeat split; reflexivity.
  - split; [vm_compute; reflexivity | vm_compute; discriminate].
Qed.

(** C10 (amended). A plain save redirects to the third field of the
    second-to-last breadcrumb: for [response_add] when the POST data has
    none of [_continue], [_popup], [_addanother]; for [response_change]
    when it has none of [_continue], [_saveasnew], [_addanother]. A
    confirmed and permitted [delete_view] redirects to the third field of
    the third-to-last breadcrumb. With a breadcrumb list of fewer than
    two (for the delete view, three) entries the operation raises
    IndexError. *)
Theorem plain_save_returns_to_crumb self fw request obj post_url_continue
    object_id :
  (plain_add request ->
   (forall url, crumb_from_end request 1 url ->
      fst (response_add request obj post_url_continue)
      = Ret (HttpResponseRedirect url))
   /\ (fewer_crumbs request 2 ->
       fst (response_add request obj post_url_continue)
       = Raise (IndexError "list index out of range")))
  /\ (plain_change request ->
      (forall url, crumb_from_end request 1 url ->
         fst (response_change request obj) = Ret (HttpResponseRedirect url))
      /\ (fewer_crumbs request 2 ->
          fst (response_change request obj)
          = Raise (IndexError "list index out of range")))
  /\ (confirmed_delete self fw request object_id ->
      (forall url, crumb_from_end request 2 url ->
         fst (delete_view self fw request object_id)
         = Ret (HttpResponseRedirect url))
      /\ (fewer_crumbs request 3 ->
          fst (delete_view self fw request object_id)
          = Raise (IndexError "list index out of range"))).
Proof.
  split; [|split].
  - intros Hplain. rewrite (response_add_plain _ _ _ Hplain). split.
    + intros url Hurl.
      change (-2) with (- Z.of_nat 2).
      rewrite (crumb_url_from_end _ 1 _ Hurl). reflexivity.
    + intros Hfew. change (-2) with (- Z.of_nat 2).
      rewrite (crumb_url_too_short _ 2 Hfew). reflexivity.
  - intros Hplain. rewrite (response_change_plain _ _ Hplain). split.
    + intros url Hurl. change (-2) with (- Z.of_nat 2).
      rewrite (crumb_url_from_end _ 1 _ Hurl). reflexivity.
    + intros Hfew. change (-2) with (- Z.of_nat 2).
      rewrite (crumb_url_too_short _ 2 Hfew). reflexivity.
  - intros Hdel. rewrite (delete_view_confirmed _ _ _ _ Hdel). split.
    + intros url Hurl. change (-3) with (- Z.of_nat 3).
      rewrite (crumb_url_from_end _ 2 _ Hurl). reflexivity.
    + intros Hfew. change (-3) with (- Z.of_nat 3).
      rewrite (crumb_url_too_short _ 3 Hfew). reflexivity.
Qed.

Lemma trail_second_to_last (post : gmap string string) :
  crumb_from_end (admin_request post (Some trail)) 1
    "/scenario1/admin/input/item/".
Proof.
  exists [["Home"; "<a href=/scenario1/admin/>Home</a>";
           "/scenario1/admin/"]],
    ["Items"; "<a href=/scenario1/admin/input/item/>Items</a>";
     "/scenario1/admin/input/item/"],
    [["bolt"; "<a href=/scenario1/admin/input/item/7/>bolt</a>";
      "/scenario1/admin/input/item/7/"]].
  repeat split; reflexivity.
Defined.

Lemma trail_third_to_last (post : gmap string string) :
  crumb_from_end (admin_request post (Some trail)) 2 "/scenario1/admin/".
Proof.
  exists [],
    ["Home"; "<a href=/scenario1/admin/>Home</a>"; "/scenario1/admin/"],
    [["Items"; "<a href=/scenario1/admin/input/item/>Items</a>";
      "/scenario1/admin/input/item/"];
     ["bolt"; "<a href=/scenario1/admin/input/item/7/>bolt</a>";
      "/scenario1/admin/input/item/7/"]].
  repeat split; reflexivity.
Defined.

Lemma plain_request_is_plain :
  plain_add plain_request /\ plain_change plain_request.
Proof. repeat split; reflexivity. Defined.

Lemma plain_request_confirms_delete :
  confirmed_delete item_admin django plain_request "7".
Proof.
  split.
  - apply (bool_decide_unpack _). vm_compute. exact I.
  - exists item7. repeat split; reflexivity.
Defined.

Lemma plain_save_returns_to_crumb_witness :
  fst (response_add plain_request item7 "../%s/")
  = Ret (HttpResponseRedirect "/scenario1/admin/input/item/")
  /\ fst (response_change plain_request item7)
     = Ret (HttpResponseRedirect "/scenario1/admin/input/item/")
  /\ fst (delete_view item_admin django plain_request "7")
     = Ret (HttpResponseRedirect "/scenario1/admin/")
  /\ fst (response_add short_request item7 "../%s/")
     = Raise (IndexError "list index out of range").
Proof.
  destruct (plain_save_returns_to_crumb item_admin django plain_request
              item7 "../%s/" "7") as (Hadd & Hchange & Hdelete).
  destruct (plain_save_returns_to_crumb item_admin django short_request
              item7 "../%s/" "7") as (Hshort & _).
  split; [|split; [|split]].
  - apply (proj1 (Hadd (proj1 plain_request_is_plain))).
    apply trail_second_to_last.
  - apply (proj1 (Hchange (proj2 plain_request_is_plain))).
    apply trail_second_to_last.
  - apply (proj1 (Hdelete plain_request_confirms_delete)).
    apply trail_third_to_last.
  - apply (proj2 (Hshort (proj1 plain_request_is_plain))).
    eexists. split; [reflexivity|]. cbn. lia.
Defined.

End AdminClaims.

(* ===================================================================== *)
(** ** The deployment at work                                            *)
(* ===================================================================== *)

Module ScenarioExamples.
Import Py Frepplexml Scenario.

Example get_ok :
  fst (xml demo get_req {[ "database" := "prod" ]} fresh)
  = Returned (Response 200 "<plan><items/></plan>"
                (("Content-Type", "application/xml;charset=utf8")
                 :: no_cache)).
Proof. vm_compute. reflexivity. Qed.

Example get_anonymous :
  fst (xml demo (HttpRequest "GET" ∅ ∅) {[ "database" := "prod" ]} fresh)
  = Returned login_challenge.
Proof. vm_compute. reflexivity. Qed.

Example post_ok :
  fst (xml demo (post_req good_form) ∅ fresh)
  = Returned (Response 200 "imported"
                (("Content-Type", "text/plain") :: no_cache)).
Proof. vm_compute. reflexivity. Qed.

Example delete_is_refused :
  outcome_status (fst (xml demo (HttpRequest "DELETE" basic_admin ∅) ∅ fresh))
  = 405.
Proof. vm_compute. reflexivity. Qed.

Example post_without_company :
  fst (xml demo (post_req {[ "database" := "prod" ]}) ∅ fresh)
  = Returned (Response 401 "Invalid company name argument" []).
Proof. vm_compute. reflexivity. Qed.

Example get_mode_not_a_number :
  outcome_status
    (fst (xml demo get_req (<[ "mode" := "full" ]> prod_kwargs) fresh))
  = 500.
Proof. vm_compute. reflexivity. Qed.

Example save_goes_to_scenario1 :
  Common.save_model plain_request item7
  = [Common.ModelSave item7 "scenario1"].
Proof. reflexivity. Qed.

Example delete_calls :
  Common.call_db
    <$> snd (Common.delete_view item_admin django plain_request "7")
  = [Some "scenario1"; Some "scenario1"; None; Some "scenario1"; None; None].
Proof. vm_compute. reflexivity. Qed.

Example add_popup_fails :
  fst (Common.response_add
         (admin_request {[ "_popup" := "1" ]} (Some trail)) item7 "../%s/")
  = Raise (NameError "global name 'escapejs' is not defined").
Proof. vm_compute. reflexivity. Qed.

Example no_crumbs_in_session :
  fst (Common.response_change (admin_request ∅ None) item7)
  = Raise (KeyError "crumbs").
Proof. vm_compute. reflexivity. Qed.
End ScenarioExamples.

(* ===================================================================== *)
(** ** The XML endpoint: what every request does                         *)
(* ===================================================================== *)

Module XmlInversion.
Import Py Frepplexml XmlSpec XmlCases AuthFacts XmlFacts XmlClaims.

Lemma new_events_app st st' evs :
  trace st' = (trace st ++ evs)%list -> new_events st st' = evs.
Proof. intros H. unfold new_events. rewrite H. apply drop_app_length. Qed.

Lemma new_events_same st st' :
  trace st' = trace st -> new_events st st' = [].
Proof.
  intros H. apply new_events_app. rewrite app_nil_r. exact H.
Qed.

Lemma token_dichotomy w req comp user :
  token_accepted w req comp user \/ token_refused w req comp user.
Proof.
  unfold token_accepted, token_refused.
  destruct (jwt_decode w (form req !! "webtoken") (webtoken_key comp)
              ["HS256"]) as [decoded|e] eqn:Hd.
  - destruct (decide (user_claim decoded = VStr user)) as [Hu|Hu].
    + left. exists decoded. split; [reflexivity | exact Hu].
    + right. right. exists decoded. split; [reflexivity | exact Hu].
  - right. left. exists e. reflexivity.
Qed.

(** The GET branch, case by case. *)
Lemma xml_get_inversion w req kwargs st :
  method req = "GET" ->
  xml_case w req kwargs st (fst (xml w req kwargs st))
    (new_events st (snd (xml w req kwargs st))).
Proof.
  intros Hm.
  destruct (login_dichotomy w req (get_database kwargs))
    as [(user & password & Hacc) | Hfail].
  - rewrite (xml_get_logged_in _ _ _ _ _ _ Hm Hacc). cbn zeta.
    destruct (int (get_mode kwargs)) as [mode|e] eqn:Hmode.
    + rewrite (export_data_run _ _ _ _ _ Hmode). cbn zeta.
      rewrite sess_logged_in.
      destruct (exporter_run w _ _ _ _) as [chunks|e] eqn:Hrun; cbn [fst snd].
      * rewrite (new_events_app st _
                   [CallExporter (get_database kwargs) (kwargs !! "company")
                      (VInt mode)]) by reflexivity.
        eapply Exported; eassumption.
      * rewrite (new_events_app st _
                   [CallExporter (get_database kwargs) (kwargs !! "company")
                      (VInt mode);
                    LogException "Error generating frePPLe XML data" e]).
        -- eapply ExportFailed; eassumption.
        -- cbn. rewrite <- app_assoc. reflexivity.
    + rewrite (export_data_bad_mode _ _ _ _ _ Hmode). cbn [fst snd].
      rewrite (new_events_app st _
                 [LogException "Error generating frePPLe XML data" e])
        by reflexivity.
      eapply BadMode; eassumption.
  - unfold xml. rewrite (is_get _ Hm). cbn zeta.
    match goal with
    | |- context [authenticate w req ?d ?l ?s] =>
        destruct (authenticate_failure w req d l s Hfail)
          as (e & st' & -> & _ & Ht)
    end.
    cbn [fst snd].
    rewrite (new_events_app st _
               [LogWarning ("Failed login attempt: " +:+ exn_msg e)]).
    + apply LoginFailed. left. split; assumption.
    + cbn. rewrite Ht. reflexivity.
Qed.

(** The POST branch, case by case. *)
Lemma xml_post_inversion w req kwargs st :
  method req = "POST" ->
  xml_case w req kwargs st (fst (xml w req kwargs st))
    (new_events st (snd (xml w req kwargs st))).
Proof.
  intros Hm.
  destruct (login_dichotomy w req (post_database req))
    as [(user & password & Hacc) | Hfail].
  - rewrite (xml_post_logged_in _ _ _ _ _ _ Hm Hacc). cbn zeta.
    destruct (resolve_company w (form req !! "company")) as [comp|] eqn:Hcomp.
    + rewrite check_webtoken_logged_in.
      destruct (token_dichotomy w req comp user)
        as [(decoded & Hd & Hu) | Href].
      * rewrite Hd. rewrite bool_decide_eq_true_2 by congruence.
        rewrite import_data_run. cbn zeta. rewrite sess_logged_in.
        destruct (importer_run w _ _ _ _) as [res|e] eqn:Hrun; cbn [fst snd].
        -- rewrite (new_events_app st _
                      [CallImporter (post_database req) comp
                         (get_mode (form req))]) by reflexivity.
           eapply Imported; try eassumption. exists decoded. auto.
        -- rewrite (new_events_app st _
                      [CallImporter (post_database req) comp
                         (get_mode (form req));
                       LogException "Error processing data posted by frePPLe"
                         e]).
           ++ eapply ImportFailed; try eassumption. exists decoded. auto.
           ++ cbn. rewrite <- app_assoc. reflexivity.
      * destruct Href as [[e He] | (decoded & Hd & Hne)].
        -- rewrite He. cbn [fst snd].
           rewrite new_events_same by reflexivity.
           eapply BadToken; try eassumption. left. exists e. exact He.
        -- rewrite Hd. rewrite bool_decide_eq_false_2 by congruence.
           cbn [fst snd]. rewrite new_events_same by reflexivity.
           eapply BadToken; try eassumption.
           right. exists decoded. split; assumption.
    + cbn [fst snd]. rewrite new_events_same by reflexivity.
      eapply NoCompany; eassumption.
  - unfold xml. destruct (is_post _ Hm) as [-> ->]. cbn zeta.
    match goal with
    | |- context [authenticate w req ?d ?l ?s] =>
        destruct (authenticate_failure w req d l s Hfail)
          as (e & st' & -> & _ & Ht)
    end.
    cbn [fst snd].
    rewrite (new_events_app st _
               [LogWarning ("Failed login attempt " +:+ exn_msg e)]).
    + apply LoginFailed. right. split; assumption.
    + cbn. rewrite Ht. reflexivity.
Qed.

Lemma xml_other_method w req kwargs st :
  method req <> "GET" -> method req <> "POST" ->
  xml w req kwargs st
  = (Raised (MethodNotAllowed "Only GET and POST requests are accepted"), st).
Proof.
  intros Hg Hp. unfold xml.
  rewrite (bool_decide_eq_false_2 _ Hg), (bool_decide_eq_false_2 _ Hp).
  reflexivity.
Qed.

(** Every request ends in one of the nine cases. *)
Lemma xml_inversion w req kwargs st :
  xml_case w req kwargs st (fst (xml w req kwargs st))
    (new_events st (snd (xml w req kwargs st))).
Proof.
  destruct (decide (method req = "GET")) as [Hg|Hg];
    [apply xml_get_inversion, Hg|].
  destruct (decide (method req = "POST")) as [Hp|Hp];
    [apply xml_post_inversion, Hp|].
  rewrite (xml_other_method _ _ _ _ Hg Hp). cbn [fst snd].
  rewrite new_events_same by reflexivity.
  apply OtherMethod; assumption.
Qed.

End XmlInversion.

(* ===================================================================== *)
(** ** The XML endpoint: further properties                              *)
(* ===================================================================== *)

Module XmlExtras.
Import Py Frepplexml XmlSpec XmlCases AuthFacts XmlFacts XmlClaims
  XmlInversion Scenario.

(** X1. A request whose method is neither GET nor POST is refused with
    werkzeug's MethodNotAllowed, status 405, before anything else happens:
    no login is attempted and the session, [self.user] and the log are
    left as they were. *)
Theorem other_methods_are_refused_untouched w req kwargs st :
  method req <> "GET" -> method req <> "POST" ->
  outcome_status (fst (xml w req kwargs st)) = 405
  /\ snd (xml w req kwargs st) = st.
Proof.
  intros Hg Hp. rewrite (xml_other_method _ _ _ _ Hg Hp).
  split; reflexivity.
Qed.

Lemma other_methods_are_refused_untouched_witness :
  outcome_status
    (fst (xml demo (HttpRequest "DELETE" basic_admin good_form) prod_kwargs
            fresh)) = 405
  /\ snd (xml demo (HttpRequest "DELETE" basic_admin good_form) prod_kwargs
            fresh) = fresh.
Proof.
  apply (other_methods_are_refused_untouched demo
           (HttpRequest "DELETE" basic_admin good_form) prod_kwargs fresh);
    discriminate.
Defined.

(** X2. Whatever the request and the collaborators do, the handler ends
    with one of four statuses: 200, 401, 405 or 500. *)
Theorem status_is_one_of_four w req kwargs st :
  outcome_status (fst (xml w req kwargs st)) ∈ [200; 401; 405; 500].
Proof.
  destruct (xml_inversion w req kwargs st); cbn;
    rewrite !elem_of_cons; auto 10.
Qed.

(** X3. The importer is called only for a POST that passed all three
    checks: the credentials were accepted, the company was resolved and
    the webtoken decoded under that company's key to the authenticated
    user. It is then called with the posted database and mode. *)
Theorem importer_needs_verified_post w req kwargs st d c m :
  CallImporter d c m ∈ new_events st (snd (xml w req kwargs st)) ->
  method req = "POST"
  /\ d = post_database req /\ m = get_mode (form req)
  /\ resolve_company w (form req !! "company") = Some c
  /\ exists user password,
       credentials_accepted w req (post_database req) user password
       /\ token_accepted w req c user.
Proof.
  destruct (xml_inversion w req kwargs st) as
    [ | | | | | | | user password comp res Hm Hacc Hcomp Htok Hrun
      | user password comp e Hm Hacc Hcomp Htok Hrun ];
    rewrite ?elem_of_cons, ?elem_of_nil; intros Hin;
    try (exfalso; intuition discriminate).
  - destruct Hin as [Heq | []]. injection Heq as -> -> ->.
    repeat split; try assumption. exists user, password. auto.
  - destruct Hin as [Heq | [Heq | []]]; [|discriminate].
    injection Heq as -> -> ->.
    repeat split; try assumption. exists user, password. auto.
Qed.

Lemma importer_needs_verified_post_witness :
  CallImporter (Some "prod") acme (VInt 1)
    ∈ new_events fresh (snd (xml demo (post_req good_form) ∅ fresh))
  /\ method (post_req good_form) = "POST"
  /\ Some "prod" = post_database (post_req good_form)
  /\ VInt 1 = get_mode (form (post_req good_form))
  /\ resolve_company demo (form (post_req good_form) !! "company")
     = Some acme
  /\ exists user password,
       credentials_accepted demo (post_req good_form)
         (post_database (post_req good_form)) user password
       /\ token_accepted demo (post_req good_form) acme user.
Proof.
  assert (Hin : CallImporter (Some "prod") acme (VInt 1)
                  ∈ new_events fresh
                      (snd (xml demo (post_req good_form) ∅ fresh)))
    by (vm_compute; left).
  split; [exact Hin|].
  exact (importer_needs_verified_post demo (post_req good_form) ∅ fresh
           (Some "prod") acme (VInt 1) Hin).
Defined.

(** X4. The exporter is called only for a GET whose credentials were
    accepted, with the database and company of the query string and with
    the integer that [int] made of the mode. *)
Theorem exporter_needs_authenticated_get w req kwargs st d c m :
  CallExporter d c m ∈ new_events st (snd (xml w req kwargs st)) ->
  method req = "GET"
  /\ d = get_database kwargs /\ c = kwargs !! "company"
  /\ (exists z, m = VInt z /\ int (get_mode kwargs) = Ret z)
  /\ exists user password,
       credentials_accepted w req (get_database kwargs) user password.
Proof.
  destruct (xml_inversion w req kwargs st) as
    [ | | | user password mode chunks Hm Hacc Hmode Hrun
      | user password mode e Hm Hacc Hmode Hrun | | | | ];
    rewrite ?elem_of_cons, ?elem_of_nil; intros Hin;
    try (exfalso; intuition discriminate).
  - destruct Hin as [Heq | []]. injection Heq as -> -> ->.
    repeat split; try assumption; eauto.
  - destruct Hin as [Heq | [Heq | []]]; [|discriminate].
    injection Heq as -> -> ->.
    repeat split; try assumption; eauto.
Qed.

Lemma exporter_needs_authenticated_get_witness :
  CallExporter (Some "prod") None (VInt 2)
    ∈ new_events fresh (snd (xml demo get_req mode2_kwargs fresh))
  /\ method get_req = "GET"
  /\ Some "prod" = get_database mode2_kwargs
  /\ None = mode2_kwargs !! "company"
  /\ (exists z, VInt 2 = VInt z /\ int (get_mode mode2_kwargs) = Ret z)
  /\ exists user password,
       credentials_accepted demo get_req (get_database mode2_kwargs)
         user password.
Proof.
  assert (Hin : CallExporter (Some "prod") None (VInt 2)
                  ∈ new_events fresh
                      (snd (xml demo get_req mode2_kwargs fresh)))
    by (vm_compute; left).
  split; [exact Hin|].
  exact (exporter_needs_authenticated_get demo get_req mode2_kwargs fresh
           (Some "prod") None (VInt 2) Hin).
Defined.

(** X5. A request calls at most one collaborator. One answered with 200
    has called exactly one and logged nothing; one answered with 401 or
    405 has called none. *)
Theorem calls_follow_the_status w req kwargs st :
  (length (filter (fun ev => is_call ev = true)
             (new_events st (snd (xml w req kwargs st)))) <= 1)%nat
  /\ (outcome_status (fst (xml w req kwargs st)) = 200 ->
      exists ev, new_events st (snd (xml w req kwargs st)) = [ev]
                 /\ is_call ev = true)
  /\ (outcome_status (fst (xml w req kwargs st)) = 401
      \/ outcome_status (fst (xml w req kwargs st)) = 405 ->
      Forall (fun ev => is_call ev = false)
        (new_events st (snd (xml w req kwargs st)))).
Proof.
  destruct (xml_inversion w req kwargs st);
    (split; [vm_compute; lia|]);
    (split; [cbn; intros Hs; try discriminate; eexists; split; reflexivity|]);
    cbn; intros [Hs|Hs]; try discriminate; repeat constructor.
Qed.

Lemma calls_follow_the_status_witness :
  (length (filter (fun ev => is_call ev = true)
             (new_events fresh (snd (xml demo (post_req bob_form) ∅ fresh))))
   <= 1)%nat
  /\ Forall (fun ev => is_call ev = false)
       (new_events fresh (snd (xml demo (post_req bob_form) ∅ fresh))).
Proof.
  destruct (calls_follow_the_status demo (post_req bob_form) ∅ fresh)
    as (Hle & _ & Hnone).
  split; [exact Hle|]. apply Hnone. left. reflexivity.
Defined.

(** [authenticate] never writes [req.session.db]. *)
Lemma authenticate_session_db w req database language st :
  session_db (sess (snd (authenticate w req database language st)))
  = session_db (sess st).
Proof.
  destruct (login_dichotomy w req database)
    as [(user & password & Hacc) | Hfail].
  - rewrite (authenticate_accepted _ _ _ language _ _ st Hacc). reflexivity.
  - destruct (authenticate_failure w req database language st Hfail)
      as (e & st' & -> & Hs & _).
    cbn [snd]. rewrite Hs. reflexivity.
Qed.

(** X6. A GET or POST stores the database name it was given in
    [req.session.db] before it authenticates, and nothing changes it
    afterwards: the session names that database (or none, when the
    parameter is absent) also after a failed login. *)
Theorem session_db_is_overwritten w req kwargs st :
  (method req = "GET" ->
   session_db (sess (snd (xml w req kwargs st))) = kwargs !! "database")
  /\ (method req = "POST" ->
      session_db (sess (snd (xml w req kwargs st)))
      = form req !! "database").
Proof.
  split; intros Hm; unfold xml.
  - rewrite (is_get _ Hm). cbn zeta.
    match goal with
    | |- context [authenticate w req ?d ?l ?s] =>
        pose proof (authenticate_session_db w req d l s) as Hdb;
        destruct (authenticate w req d l s) as [[[]|e] st1]
    end; cbn [snd] in Hdb.
    + unfold export_data. step.
      destruct (int (get_mode kwargs)) as [mode|e]; [|exact Hdb].
      destruct (exporter_run w _ _ _ _); exact Hdb.
    + exact Hdb.
  - destruct (is_post _ Hm) as [-> ->]. cbn zeta.
    match goal with
    | |- context [authenticate w req ?d ?l ?s] =>
        pose proof (authenticate_session_db w req d l s) as Hdb;
        destruct (authenticate w req d l s) as [[[]|e] st1]
    end; cbn [snd] in Hdb.
    + destruct (resolve_company w _) as [comp|]; [|exact Hdb].
      unfold check_webtoken. step.
      destruct (jwt_decode w _ _ _) as [decoded|e]; [|exact Hdb].
      destruct (self_user st1) as [u|]; [|exact Hdb].
      destruct (bool_decide (VStr u = user_claim decoded)); [|exact Hdb].
      unfold import_data. step.
      destruct (importer_run w _ _ _ _); exact Hdb.
    + exact Hdb.
Qed.

Lemma session_db_is_overwritten_witness :
  session_db (sess (snd (xml demo anonymous_post ∅ fresh)))
  = form anonymous_post !! "database".
Proof.
  apply (proj2 (session_db_is_overwritten demo anonymous_post ∅ fresh)).
  reflexivity.
Defined.

(** X7. [authenticate] assigns [self.user] as soon as the credentials are
    split, before they are checked: the controller keeps the user name of
    the header also when the login is then rejected. *)
Theorem user_is_recorded_before_the_check w req database language st cred
    user password :
  basic_credentials w req cred ->
  split_at ":" cred = Some (user, password) ->
  self_user (snd (authenticate w req database language st)) = Some user.
Proof.
  intros (h & scheme & payload & Hh & Hs & Hl & Hd) Hc.
  unfold authenticate. rewrite Hh. step.
  rewrite (split1_some _ _ _ _ Hs). step.
  rewrite (bool_decide_eq_true_2 _ Hl). cbn [negb]. step. rewrite Hd.
  rewrite (split1_some _ _ _ _ Hc). step.
  destruct (falsy database || bool_decide (user = "")
            || bool_decide (password = "")); [reflexivity|].
  destruct (session_authenticate w _ user password) as [[|]|e];
    cbn [negb]; try reflexivity.
  destruct (falsy language); reflexivity.
Qed.

Lemma user_is_recorded_before_the_check_witness :
  self_user
    (snd (authenticate demo (post_req good_form) (Some "other") None fresh))
  = Some "admin".
Proof.
  apply (user_is_recorded_before_the_check demo (post_req good_form)
           (Some "other") None fresh "admin:secret" "admin" "secret").
  - exists "Basic YWRtaW46c2VjcmV0", "Basic", "YWRtaW46c2VjcmV0".
    repeat split; reflexivity.
  - reflexivity.
Defined.

(** X8. The language is written to the session only by a successful
    login, and only when it is not empty: when [authenticate] returns,
    the session language is the one given (the previous one for an absent
    or empty language); when it raises, the session is as before. *)
Theorem language_is_set_on_success_only w req database language st :
  match fst (authenticate w req database language st) with
  | Ret _ =>
      session_lang (sess (snd (authenticate w req database language st)))
      = if falsy language then session_lang (sess st) else language
  | Raise _ =>
      sess (snd (authenticate w req database language st)) = sess st
  end.
Proof.
  destruct (login_dichotomy w req database)
    as [(user & password & Hacc) | Hfail].
  - rewrite (authenticate_accepted _ _ _ language _ _ st Hacc). reflexivity.
  - destruct (authenticate_failure w req database language st Hfail)
      as (e & st' & -> & Hs & _).
    exact Hs.
Qed.

(** X9. The company lookup finds nothing exactly when no company of the
    directory carries the name. *)
Theorem resolve_company_none_iff w name :
  resolve_company w name = None
  <-> forall c, c ∈ companies w -> Some (company_name c) <> name.
Proof.
  split; [|apply resolve_company_none].
  unfold resolve_company, search_company. intros Hnone c Hc Hname.
  apply last_None in Hnone.
  assert (Hin : c ∈ filter (fun c => Some (company_name c) = name)
                      (companies w))
    by (apply list_elem_of_filter; split; assumption).
  rewrite Hnone in Hin. apply elem_of_nil in Hin. exact Hin.
Qed.

(** When several companies carry the name, the [for] loop keeps the last
    one in the order of the directory. *)
Lemma resolve_company_keeps_last w name before c after :
  companies w = (before ++ c :: after)%list ->
  Some (company_name c) = name ->
  (forall c', c' ∈ after -> Some (company_name c') <> name) ->
  resolve_company w name = Some c.
Proof.
  intros Hw Hc Hafter. unfold resolve_company, search_company.
  rewrite Hw, filter_app, filter_cons.
  destruct (decide (Some (company_name c) = name)) as [_|Hn];
    [|contradiction].
  assert (Hnil : filter (fun c0 => Some (company_name c0) = name) after = []).
  { clear Hw. induction after as [|a after IH]; [reflexivity|].
    rewrite filter_cons.
    destruct (decide (Some (company_name a) = name)) as [Ha|_].
    - exfalso. apply (Hafter a); [left | exact Ha].
    - apply IH. intros c' Hc'. apply Hafter. right. exact Hc'. }
  rewrite Hnil. apply last_snoc.
Qed.

(** X10. When several companies carry the posted name, the lookup keeps
    the last one in the order of the directory, and it is the key of that
    company the webtoken is checked against: an authenticated POST is
    answered 'Incorrect or missing webtoken' when the token is refused
    under that key, and calls the importer with that company when the
    token is accepted under it. *)
Theorem last_match_key_checks_the_token w req kwargs st user password before
    c after :
  method req = "POST" ->
  credentials_accepted w req (post_database req) user password ->
  companies w = (before ++ c :: after)%list ->
  Some (company_name c) = form req !! "company" ->
  (forall c', c' ∈ after -> Some (company_name c') <> form req !! "company") ->
  resolve_company w (form req !! "company") = Some c
  /\ (token_refused w req c user ->
      fst (xml w req kwargs st)
      = Returned (Response 401 "Incorrect or missing webtoken" [])
      /\ new_events st (snd (xml w req kwargs st)) = [])
  /\ (token_accepted w req c user ->
      CallImporter (post_database req) c (get_mode (form req))
      ∈ new_events st (snd (xml w req kwargs st))).
Proof.
  intros Hm Hacc Hw Hc Hafter.
  pose proof (resolve_company_keeps_last _ _ _ _ _ Hw Hc Hafter) as Hres.
  split; [exact Hres|].
  rewrite (xml_post_logged_in _ _ _ _ _ _ Hm Hacc). cbn zeta.
  rewrite Hres, check_webtoken_logged_in. split.
  - intros [[e ->] | (decoded & -> & Hne)].
    + split; [reflexivity | apply new_events_same; reflexivity].
    + rewrite bool_decide_eq_false_2 by congruence.
      split; [reflexivity | apply new_events_same; reflexivity].
  - intros (decoded & -> & Hu).
    rewrite bool_decide_eq_true_2 by congruence.
    rewrite import_data_run. cbn zeta.
    destruct (importer_run w _ _ _ _) as [res|e]; cbn [snd].
    + rewrite (new_events_app st _
                 [CallImporter (post_database req) c (get_mode (form req))])
        by reflexivity.
      left.
    + rewrite (new_events_app st _
                 [CallImporter (post_database req) c (get_mode (form req));
                  LogException "Error processing data posted by frePPLe" e]).
      * left.
      * cbn. rewrite <- app_assoc. reflexivity.
Qed.

Lemma merged_accepts_admin :
  credentials_accepted merged (post_req good_form)
    (post_database (post_req good_form)) "admin" "secret".
Proof.
  exists "admin:secret", "prod".
  repeat split; try reflexivity; try discriminate.
  exists "Basic YWRtaW46c2VjcmV0", "Basic", "YWRtaW46c2VjcmV0".
  repeat split; reflexivity.
Defined.

Lemma last_match_key_checks_the_token_witness :
  resolve_company merged (form (post_req good_form) !! "company")
  = Some acme_new
  /\ (token_refused merged (post_req good_form) acme_new "admin" ->
      fst (xml merged (post_req good_form) ∅ fresh)
      = Returned (Response 401 "Incorrect or missing webtoken" [])
      /\ new_events fresh (snd (xml merged (post_req good_form) ∅ fresh))
         = [])
  /\ (token_accepted merged (post_req good_form) acme_new "admin" ->
      CallImporter (post_database (post_req good_form)) acme_new
        (get_mode (form (post_req good_form)))
      ∈ new_events fresh (snd (xml merged (post_req good_form) ∅ fresh))).
Proof.
  apply (last_match_key_checks_the_token merged (post_req good_form) ∅ fresh
           "admin" "secret" [acme_old; initech] acme_new []).
  - reflexivity.
  - exact merged_accepts_admin.
  - reflexivity.
  - reflexivity.
  - intros c' Hc'. apply elem_of_nil in Hc'. destruct Hc'.
Defined.

(** In the merged directory the token signed with the newer key is
    accepted and the importer gets the newer company; the older company of
    the same name plays no part. *)
Example merged_directory_imports_for_the_newer_company :
  token_accepted merged (post_req good_form) acme_new "admin"
  /\ new_events fresh (snd (xml merged (post_req good_form) ∅ fresh))
     = [CallImporter (Some "prod") acme_new (VInt 1)].
Proof.
  split; [|vm_compute; reflexivity].
  exists {[ "user" := VStr "admin" ]}. split; reflexivity.
Qed.

Lemma split_at_first sep a b :
  split_at sep a = None -> split_at sep (a +:+ String sep b) = Some (a, b).
Proof.
  induction a as [|c a IH]; intros H.
  - change (split_at sep (String sep b) = Some (EmptyString, b)).
    unfold split_at. rewrite (bool_decide_eq_true_2 (sep = sep) eq_refl).
    reflexivity.
  - change (split_at sep (String c (a +:+ String sep b))
            = Some (String c a, b)).
    change (split_at sep (String c a)) with
      (if bool_decide (c = sep) then Some (EmptyString, a)
       else match split_at sep a with
            | Some (x, y) => Some (String c x, y)
            | None => None
            end) in H.
    change (split_at sep (String c (a +:+ String sep b))) with
      (if bool_decide (c = sep) then Some (EmptyString, a +:+ String sep b)
       else match split_at sep (a +:+ String sep b) with
            | Some (x, y) => Some (String c x, y)
            | None => None
            end).
    destruct (bool_decide (c = sep)); [discriminate|].
    destruct (split_at sep a) as [[x y]|]; [discriminate|].
    rewrite (IH eq_refl). reflexivity.
Qed.

(** X11. The credentials are cut at the first colon: a password may
    contain colons and reaches the authentication service whole, with the
    text before the first colon as the user name. *)
Theorem password_may_contain_colons w req language st payload user password
    db :
  headers req !! "authorization" = Some ("Basic " +:+ payload) ->
  base64_decode w (strip payload) = Ret (user +:+ String ":" password) ->
  split_at ":" user = None ->
  db <> "" -> user <> "" -> password <> "" ->
  session_authenticate w db user password = Ret true ->
  authenticate w req (Some db) language st
  = (Ret tt, logged_in user language st).
Proof.
  intros Hh Hd Hu Hdb Hune Hpne Hok.
  apply (authenticate_accepted w req (Some db) language user password st).
  exists (user +:+ String ":" password), db.
  repeat split; try assumption.
  - exists ("Basic " +:+ payload), "Basic", payload.
    repeat split; try assumption; reflexivity.
  - apply split_at_first, Hu.
Qed.

Lemma password_may_contain_colons_witness :
  authenticate
    (World None (fun _ => Ret "admin:se:cr:et")
       (fun db u p => Ret (bool_decide (p = "se:cr:et")))
       [] (jwt_decode demo) (exporter_run demo) (importer_run demo))
    get_req (Some "prod") None fresh
  = (Ret tt, logged_in "admin" None fresh).
Proof.
  apply (password_may_contain_colons _ get_req None fresh
           "YWRtaW46c2VjcmV0" "admin" "se:cr:et" "prod");
    try reflexivity; discriminate.
Defined.

(** X12. A GET whose [mode] is not an integer literal fails inside the
    export [try]: the answer is the 500 of a failed export, the ValueError
    goes to the log, and the exporter is not built. *)
Theorem bad_mode_is_a_server_error w req kwargs st user password e :
  method req = "GET" ->
  credentials_accepted w req (get_database kwargs) user password ->
  int (get_mode kwargs) = Raise e ->
  fst (xml w req kwargs st) = Raised (InternalServerError export_error)
  /\ outcome_status (fst (xml w req kwargs st)) = 500
  /\ new_events st (snd (xml w req kwargs st))
     = [LogException "Error generating frePPLe XML data" e].
Proof.
  intros Hm Hacc Hmode.
  destruct (export_bad_mode_is_opaque _ _ _ st _ _ _ Hm Hacc Hmode)
    as [Hout Htrace].
  rewrite Hout. repeat split. apply new_events_app, Htrace.
Qed.

Lemma bad_mode_is_a_server_error_witness :
  fst (xml demo get_req (<[ "mode" := "full" ]> prod_kwargs) fresh)
  = Raised (InternalServerError export_error)
  /\ outcome_status
       (fst (xml demo get_req (<[ "mode" := "full" ]> prod_kwargs) fresh))
     = 500
  /\ new_events fresh
       (snd (xml demo get_req (<[ "mode" := "full" ]> prod_kwargs) fresh))
     = [LogException "Error generating frePPLe XML data"
          (invalid_literal "full")].
Proof.
  apply (bad_mode_is_a_server_error demo get_req
           (<[ "mode" := "full" ]> prod_kwargs) fresh "admin" "secret").
  - reflexivity.
  - apply demo_accepts_admin_get. reflexivity.
  - reflexivity.
Defined.

(** X13. Every answer with status 200 carries a content type followed by
    the three cache-disabling headers, and nothing else. *)
Theorem success_is_never_cacheable w req kwargs st :
  forall r,
    fst (xml w req kwargs st) = Returned r ->
    status r = 200 ->
    exists content_type,
      resp_headers r
      = [("Content-Type", content_type);
         ("Cache-Control", "no-cache, no-store, must-revalidate");
         ("Pragma", "no-cache");
         ("Expires", "0")].
Proof.
  destruct (xml_inversion w req kwargs st); intros r Hr Hs;
    try discriminate; injection Hr as <-; try discriminate;
    eexists; reflexivity.
Qed.

Lemma success_is_never_cacheable_witness :
  exists content_type,
    resp_headers
      (Response 200 "imported" (("Content-Type", "text/plain") :: no_cache))
    = [("Content-Type", content_type);
       ("Cache-Control", "no-cache, no-store, must-revalidate");
       ("Pragma", "no-cache");
       ("Expires", "0")].
Proof.
  apply (success_is_never_cacheable demo (post_req good_form) ∅ fresh).
  - vm_compute. reflexivity.
  - reflexivity.
Defined.

(** X14. The answer of [db_monodb()] has no influence on the handler:
    replacing it changes neither the response nor the final state, for
    any method. *)
Theorem monodb_is_never_used w req kwargs st d :
  xml (with_monodb d w) req kwargs st = xml w req kwargs st.
Proof.
  unfold xml. cbn zeta.
  destruct (bool_decide (method req = "GET")); [reflexivity|].
  destruct (bool_decide (method req = "POST")); reflexivity.
Qed.

(** X15. A POST reads the query parameters only for the language: the
    database, company, mode and webtoken are taken from the form, so two
    POSTs that differ only in other query parameters are handled alike. *)
Theorem post_reads_only_the_language w req kwargs kwargs' st :
  method req = "POST" ->
  kwargs !! "language" = kwargs' !! "language" ->
  xml w req kwargs st = xml w req kwargs' st.
Proof.
  intros Hm Hlang. unfold xml. destruct (is_post _ Hm) as [-> ->].
  cbn zeta. rewrite Hlang. reflexivity.
Qed.

Lemma post_reads_only_the_language_witness :
  xml demo (post_req good_form) {[ "database" := "other"; "mode" := "7" ]}
    fresh
  = xml demo (post_req good_form) ∅ fresh.
Proof.
  apply (post_reads_only_the_language demo (post_req good_form)
           {[ "database" := "other"; "mode" := "7" ]} ∅ fresh);
    reflexivity.
Defined.

End XmlExtras.

(* ===================================================================== *)
(** ** The admin classes: further properties                             *)
(* ===================================================================== *)

Module AdminExtras.
Import Py Common AdminSpec AdminFacts Scenario.

(** [l[-k]] succeeds only on the entry with [k - 1] entries after it. *)
Lemma index_from_end_inv {A : Type} (l : list A) (k : nat) (x : A) :
  index l (- Z.of_nat (S k)) = Ret x ->
  exists before after,
    l = (before ++ x :: after)%list /\ length after = k.
Proof.
  unfold index.
  destruct (Z.ltb_spec (- Z.of_nat (S k)) 0) as [_|Hpos]; [|lia].
  set (j := - Z.of_nat (S k) + Z.of_nat (length l)).
  destruct (Z.ltb_spec j 0) as [Hneg|Hj]; [discriminate|].
  destruct (Z.leb_spec (Z.of_nat (length l)) j) as [Hge|Hlt];
    [discriminate|].
  cbn [orb]. destruct (l !! Z.to_nat j) as [y|] eqn:Hy; [|discriminate].
  intros Heq. injection Heq as ->.
  apply list_elem_of_split_length in Hy as (before & after & -> & Hlen).
  exists before, after. split; [reflexivity|].
  subst j. rewrite length_app in Hlen, Hj. cbn [length] in Hlen, Hj. lia.
Qed.

Lemma index_nat_inv {A : Type} (l : list A) (i : nat) (x : A) :
  index l (Z.of_nat i) = Ret x -> l !! i = Some x.
Proof.
  unfold index.
  destruct (Z.ltb_spec (Z.of_nat i) 0) as [Hneg|_]; [lia|].
  destruct (Z.ltb_spec (Z.of_nat i) 0) as [Hneg|_]; [lia|].
  destruct (Z.leb_spec (Z.of_nat (length l)) (Z.of_nat i)) as [Hge|_];
    [discriminate|].
  cbn [orb]. rewrite Nat2Z.id.
  destruct (l !! i) as [y|]; [|discriminate].
  intros Heq. injection Heq as ->. reflexivity.
Qed.

Lemma crumb_url_iff request k url :
  crumb_url request (- Z.of_nat (S k)) = Ret url
  <-> crumb_from_end request k url.
Proof.
  split; [|apply crumb_url_from_end].
  unfold crumb_url, crumb_from_end.
  destruct (crumbs request) as [l|]; [|discriminate].
  destruct (index l (- Z.of_nat (S k))) as [entry|e] eqn:He; [|discriminate].
  intros Hurl.
  apply index_from_end_inv in He as (before & after & -> & Hlen).
  exists before, entry, after. repeat split; [exact Hlen|].
  exact (index_nat_inv entry 2 url Hurl).
Qed.

Lemma redirect_to_inv r url :
  redirect_to r = Ret (HttpResponseRedirect url) <-> r = Ret url.
Proof.
  destruct r as [u|e]; cbn; split; intros H; try discriminate.
  - injection H as ->. reflexivity.
  - injection H as ->. reflexivity.
Qed.

(** X16. A plain save, or a confirmed and permitted delete, returns a
    redirect to [url] exactly when the breadcrumb list has an entry in
    the expected place (second-to-last, for the delete view
    third-to-last) whose third field is [url]: a shorter list, a missing
    list or an entry with fewer than three fields never gives a
    redirect. *)
Theorem crumb_redirect_iff self fw request obj post_url_continue object_id
    url :
  (plain_add request ->
   fst (response_add request obj post_url_continue)
   = Ret (HttpResponseRedirect url)
   <-> crumb_from_end request 1 url)
  /\ (plain_change request ->
      fst (response_change request obj) = Ret (HttpResponseRedirect url)
      <-> crumb_from_end request 1 url)
  /\ (confirmed_delete self fw request object_id ->
      fst (delete_view self fw request object_id)
      = Ret (HttpResponseRedirect url)
      <-> crumb_from_end request 2 url).
Proof.
  split; [|split].
  - intros Hplain. rewrite (response_add_plain _ _ _ Hplain).
    rewrite redirect_to_inv. exact (crumb_url_iff request 1 url).
  - intros Hplain. rewrite (response_change_plain _ _ Hplain).
    rewrite redirect_to_inv. exact (crumb_url_iff request 1 url).
  - intros Hdel. rewrite (delete_view_confirmed _ _ _ _ Hdel).
    rewrite redirect_to_inv. exact (crumb_url_iff request 2 url).
Qed.

Lemma plain_request_is_plain_add : plain_add plain_request.
Proof. repeat split; reflexivity. Defined.

Lemma crumb_redirect_iff_witness :
  fst (response_add plain_request item7 "../%s/")
  = Ret (HttpResponseRedirect "/scenario1/admin/input/item/")
  <-> crumb_from_end plain_request 1 "/scenario1/admin/input/item/".
Proof.
  apply (proj1 (crumb_redirect_iff item_admin django plain_request item7
                  "../%s/" "7" "/scenario1/admin/input/item/")).
  exact plain_request_is_plain_add.
Defined.

(** X17. Without a [crumbs] key in the session the three redirects to a
    crumb raise KeyError. *)
Theorem no_crumbs_is_a_key_error self fw request obj post_url_continue
    object_id :
  crumbs request = None ->
  (plain_add request ->
   fst (response_add request obj post_url_continue)
   = Raise (KeyError "crumbs"))
  /\ (plain_change request ->
      fst (response_change request obj) = Raise (KeyError "crumbs"))
  /\ (confirmed_delete self fw request object_id ->
      fst (delete_view self fw request object_id)
      = Raise (KeyError "crumbs")).
Proof.
  intros Hnone.
  assert (Hurl : forall i, crumb_url request i = Raise (KeyError "crumbs"))
    by (intros i; unfold crumb_url; rewrite Hnone; reflexivity).
  split; [|split].
  - intros Hplain. rewrite (response_add_plain _ _ _ Hplain), Hurl.
    reflexivity.
  - intros Hplain. rewrite (response_change_plain _ _ Hplain), Hurl.
    reflexivity.
  - intros Hdel. rewrite (delete_view_confirmed _ _ _ _ Hdel), Hurl.
    reflexivity.
Qed.

Lemma no_crumbs_is_a_key_error_witness :
  fst (response_change (admin_request {[ "name" := "bolt" ]} None) item7)
  = Raise (KeyError "crumbs").
Proof.
  apply (proj1 (proj2 (no_crumbs_is_a_key_error item_admin django
                         (admin_request {[ "name" := "bolt" ]} None) item7
                         "../%s/" "7" eq_refl))).
  repeat split; reflexivity.
Defined.

(** X18. An add posted from a popup ([_popup] without [_continue]) cannot
    answer: the response is built with [escapejs], a name the module never
    imports, so [response_add] raises NameError, before any message to the
    user. *)
Theorem add_from_popup_raises request obj post_url_continue v :
  POST request !! "_continue" = None ->
  POST request !! "_popup" = Some v ->
  response_add request obj post_url_continue
  = (Raise (NameError "global name 'escapejs' is not defined"), []).
Proof.
  intros Hc Hp. unfold response_add. cbn zeta.
  rewrite (has_key_none _ _ Hc), (has_key_some _ _ _ Hp). reflexivity.
Qed.

Lemma add_from_popup_raises_witness :
  response_add (admin_request {[ "_popup" := "1" ]} (Some trail)) item7
    "../%s/"
  = (Raise (NameError "global name 'escapejs' is not defined"), []).
Proof.
  apply (add_from_popup_raises
           (admin_request {[ "_popup" := "1" ]} (Some trail)) item7 "../%s/"
           "1"); reflexivity.
Defined.

(** X19. [delete_view] writes only for a confirmed and permitted delete:
    if its calls contain the deletion of an object or the saving of a log
    entry, then the request was a non-empty POST, the object exists in the
    request's database, the user may delete it and no permission is
    missing for the related objects. *)
Theorem delete_view_writes_only_when_confirmed self fw request object_id :
  (exists o, ModelDelete o ∈ snd (delete_view self fw request object_id))
  \/ (exists entry alias,
        LogEntrySave entry alias
        ∈ snd (delete_view self fw request object_id)) ->
  confirmed_delete self fw request object_id.
Proof.
  unfold delete_view, confirmed_delete. cbn zeta.
  destruct (has_delete_permission fw request
              (get_object self fw request (unquote fw object_id))) eqn:Hperm;
    cbn [negb snd].
  2: { intros [[o Ho] | (e & a & Ho)];
       apply list_elem_of_singleton in Ho; discriminate. }
  destruct (get_object self fw request (unquote fw object_id)) as [obj|];
    cbn [snd].
  2: { intros [[o Ho] | (e & a & Ho)];
       apply list_elem_of_singleton in Ho; discriminate. }
  destruct (bool_decide (POST request ≠ ∅)) eqn:Hpost.
  - apply bool_decide_eq_true_1 in Hpost.
    destruct (perms_needed (get_deleted_objects fw [obj] (database request)))
      as [|p ps] eqn:Hneeded; cbn [nonempty snd].
    + intros _. split; [exact Hpost|]. exists obj. auto.
    + intros [[o Ho] | (e & a & Ho)]; cbn [app] in Ho;
        rewrite !elem_of_cons, elem_of_nil in Ho;
        exfalso; intuition discriminate.
  - cbn [snd].
    intros [[o Ho] | (e & a & Ho)]; cbn [app] in Ho;
      rewrite !elem_of_cons, elem_of_nil in Ho;
      exfalso; intuition discriminate.
Qed.

Lemma plain_request_is_confirmed :
  confirmed_delete item_admin django plain_request "7".
Proof.
  split.
  - apply (bool_decide_unpack _). vm_compute. exact I.
  - exists item7. repeat split; reflexivity.
Defined.

Lemma delete_view_writes_only_when_confirmed_witness :
  (exists o,
     ModelDelete o ∈ snd (delete_view item_admin django plain_request "7"))
  /\ confirmed_delete item_admin django plain_request "7".
Proof.
  assert (Hin : exists o,
             ModelDelete o
             ∈ snd (delete_view item_admin django plain_request "7")).
  { exists item7. vm_compute. do 4 right. left. }
  split; [exact Hin|].
  apply (delete_view_writes_only_when_confirmed item_admin django
           plain_request "7").
  left. exact Hin.
Defined.

(** X20. A confirmed and permitted delete makes its calls in a fixed
    order, all before the breadcrumbs are read: it fetches the object and
    collects the related objects in the request's database, saves the
    DELETION log entry there, deletes the object and then tells the user.
    The calls are the same whether or not the redirect can be
    computed. *)
Theorem confirmed_delete_logs_then_deletes self fw request oid :
  confirmed_delete self fw request oid ->
  exists obj entry msg,
    get_object self fw request (unquote fw oid) = Some obj
    /\ snd (delete_view self fw request oid)
       = [QuerySetGet (queryset self request) (unquote fw oid);
          GetDeletedObjects [obj] (database request);
          ContentTypeForModel (model self);
          LogEntrySave entry (database request);
          ModelDelete obj;
          MessageUser msg]
    /\ flag entry = DELETION
    /\ object_id entry = obj_pk obj
    /\ user_id entry = user_pk request.
Proof.
  intros (Hpost & obj & Hobj & Hperm & Hneeded).
  exists obj. unfold delete_view. cbn zeta.
  rewrite Hobj, Hperm. cbn [negb].
  rewrite (bool_decide_eq_true_2 _ Hpost), Hneeded. cbn [nonempty snd].
  eexists. eexists. split; [reflexivity|].
  split; [reflexivity|]. repeat split.
Qed.

Lemma short_request_is_confirmed :
  confirmed_delete item_admin django short_request "7".
Proof.
  split.
  - apply (bool_decide_unpack _). vm_compute. exact I.
  - exists item7. repeat split; reflexivity.
Defined.

Lemma confirmed_delete_logs_then_deletes_witness :
  fst (delete_view item_admin django short_request "7")
  = Raise (IndexError "list index out of range")
  /\ exists obj entry msg,
       get_object item_admin django short_request (unquote django "7")
       = Some obj
       /\ snd (delete_view item_admin django short_request "7")
          = [QuerySetGet (queryset item_admin short_request)
               (unquote django "7");
             GetDeletedObjects [obj] (database short_request);
             ContentTypeForModel (model item_admin);
             LogEntrySave entry (database short_request);
             ModelDelete obj;
             MessageUser msg]
       /\ flag entry = DELETION
       /\ object_id entry = obj_pk obj
       /\ user_id entry = user_pk short_request.
Proof.
  split; [vm_compute; reflexivity|].
  apply (confirmed_delete_logs_then_deletes item_admin django short_request
           "7").
  exact short_request_is_confirmed.
Defined.

Lemma substring_length_le n s :
  (String.length (String.substring 0 n s) <= n)%nat.
Proof.
  revert s. induction n as [|n IH]; intros [|c s]; cbn; try lia.
  specialize (IH s). lia.
Qed.

Lemma substring_short n s :
  (String.length s <= n)%nat -> String.substring 0 n s = s.
Proof.
  revert s. induction n as [|n IH]; intros [|c s] H; cbn in *;
    try reflexivity; try lia.
  rewrite IH by lia. reflexivity.
Qed.

(** X21. The representation stored in a log entry is cut at 200
    characters: every entry saved by [log_addition], [log_change] or
    [log_deletion] has an [object_repr] of at most 200 characters, which
    is the text it was given when that has at most 200. *)
Theorem log_repr_is_at_most_200 self fw request obj message repr entry
    alias :
  (LogEntrySave entry alias ∈ log_addition fw request obj
   \/ LogEntrySave entry alias ∈ log_change fw request obj message ->
   (String.length (object_repr entry) <= 200)%nat
   /\ ((String.length (obj_unicode obj) <= 200)%nat ->
       object_repr entry = obj_unicode obj))
  /\ (LogEntrySave entry alias ∈ log_deletion self fw request obj repr ->
      (String.length (object_repr entry) <= 200)%nat
      /\ ((String.length repr <= 200)%nat -> object_repr entry = repr)).
Proof.
  unfold log_addition, log_change, log_deletion.
  rewrite !elem_of_cons, !elem_of_nil. split.
  - intros [[H | [H | []]] | [H | [H | []]]]; try discriminate;
      injection H as -> _; cbn [Common.object_repr]; unfold slice200;
      (split; [apply substring_length_le | apply substring_short]).
  - intros [H | [H | []]]; try discriminate.
    injection H as -> _. cbn [Common.object_repr]. unfold slice200.
    split; [apply substring_length_le | apply substring_short].
Qed.

Lemma log_repr_is_at_most_200_witness :
  (String.length
     (object_repr (LogEntry 1 5 "7" (slice200 "bolt") ADDITION ""))
   <= 200)%nat
  /\ ((String.length (obj_unicode item7) <= 200)%nat ->
      object_repr (LogEntry 1 5 "7" (slice200 "bolt") ADDITION "")
      = obj_unicode item7).
Proof.
  apply (proj1 (log_repr_is_at_most_200 item_admin django plain_request
                  item7 "changed name" "bolt"
                  (LogEntry 1 5 "7" (slice200 "bolt") ADDITION "")
                  "scenario1")).
  left. vm_compute. right. left.
Defined.

(** X22. The history view answers 404 exactly when the object is not in
    the request's database; in both cases the log entries are listed from
    that database first. *)
Theorem history_view_404_iff self fw request oid :
  ((exists msg, fst (history_view self fw request oid) = Raise (Http404 msg))
   <-> qs_get fw (QuerySet (model self) (Some (database request)))
         (unquote fw oid) = None)
  /\ snd (history_view self fw request oid)
     = [ContentTypeForModel (model self);
        LogEntryFilter (database request) oid
          (content_type_pk fw (model self));
        GetObjectOr404 (QuerySet (model self) (Some (database request)))
          (unquote fw oid)].
Proof.
  unfold history_view, qs_using. cbn zeta. cbn [qs_model].
  destruct (qs_get fw _ _) as [obj|]; cbn [fst snd]; split;
    try reflexivity; split; intros H; try discriminate; try reflexivity.
  - destruct H as [msg H]. discriminate.
  - eexists. reflexivity.
Qed.

Lemma index_raises {A : Type} (l : list A) (i : Z) (e : exn) :
  index l i = Raise e -> e = IndexError "list index out of range".
Proof.
  unfold index.
  destruct (_ || _); [intros H; injection H as <-; reflexivity|].
  destruct (l !! _); [discriminate|].
  intros H. injection H as <-. reflexivity.
Qed.

Lemma crumb_url_raises request i e :
  crumb_url request i = Raise e ->
  e = KeyError "crumbs" \/ e = IndexError "list index out of range".
Proof.
  unfold crumb_url. destruct (crumbs request) as [l|].
  - destruct (index l i) as [entry|e'] eqn:He.
    + intros H. right. exact (index_raises _ _ _ H).
    + intros H. injection H as <-. right. exact (index_raises _ _ _ He).
  - intros H. injection H as <-. left. reflexivity.
Qed.

(** X23. The delete view checks the permission before it looks whether
    the object exists: it answers 404 exactly when the object is missing
    and the user would be allowed to delete, and a user without the
    permission is refused with PermissionDenied whether the object exists
    or not. *)
Theorem delete_view_404_iff self fw request oid :
  ((exists msg, fst (delete_view self fw request oid) = Raise (Http404 msg))
   <-> get_object self fw request (unquote fw oid) = None
       /\ has_delete_permission fw request None = true)
  /\ (has_delete_permission fw request
        (get_object self fw request (unquote fw oid)) = false ->
      delete_view self fw request oid
      = (Raise PermissionDenied,
         [QuerySetGet (queryset self request) (unquote fw oid)])).
Proof.
  unfold delete_view. cbn zeta.
  destruct (get_object self fw request (unquote fw oid)) as [obj|];
    destruct (has_delete_permission fw request _) eqn:Hperm; cbn [negb];
    (split; [|intros H; try discriminate; reflexivity]).
  - split; [|intros [H _]; discriminate].
    intros [msg H]. exfalso.
    destruct (bool_decide (POST request ≠ ∅)); [|discriminate].
    destruct (nonempty _); [discriminate|]. cbn [fst] in H.
    destruct (crumb_url request (-3)) as [url|e] eqn:Hurl; [discriminate|].
    cbn in H. injection H as ->.
    destruct (crumb_url_raises _ _ _ Hurl); discriminate.
  - split; [intros [msg H]; discriminate | intros [H _]; discriminate].
  - split; [auto | intros _; eexists; reflexivity].
  - split; [intros [msg H]; discriminate | intros [_ H]; discriminate].
Qed.

Lemma delete_view_404_iff_witness :
  delete_view item_admin
    (Framework (content_type_pk django) (unquote django) (qs_get django)
       (fun _ _ => false) (get_deleted_objects django))
    plain_request "8"
  = (Raise PermissionDenied,
     [QuerySetGet (queryset item_admin plain_request) "8"]).
Proof.
  apply (proj2 (delete_view_404_iff item_admin
                  (Framework (content_type_pk django) (unquote django)
                     (qs_get django) (fun _ _ => false)
                     (get_deleted_objects django))
                  plain_request "8")).
  reflexivity.
Defined.

End AdminExtras.
